(** * The copy orchestration of [gslib/commands/cp.py]

    A shallow embedding of [CpCommand.CopyFunc] (the per-item worker, also
    used for [mv]) and of [CpCommand.RunCommand] (versioning probe, worker
    pool, throughput report, exit policy), followed by the properties of the
    specification that concern them.

    Python objects are records of their observable attributes, exceptions
    are an inductive type, and the code runs in a state-and-exception monad
    whose state carries the attributes of [self] that the code mutates, the
    manifest and the chronological history of calls to the collaborators
    (transfer backend, file system, logger). *)

From Stdlib Require Import ZArith String List Lia Permutation.
From Stdlib Require Import Floats.PrimFloat Floats.SpecFloat Floats.FloatOps.
From stdpp Require Import base option list gmap strings pretty.

Set Default Proof Using "Type".
Set Warnings "-inexact-float".
Local Open Scope string_scope.

(** ** Python values *)

(** [float(n)] for a Python integer: the correctly rounded binary64 value. *)
Definition float_of_int (n : Z) : float :=
  SF2Prim (binary_normalize 53 1024 n 0 false).

(** The exceptions that the code raises, catches or lets through.
    [OtherError] stands for any other subclass of [Exception] coming from a
    collaborator; its argument is [str(e)]. *)
Inductive Exn : Type :=
| CommandException (reason : string)
| ItemExistsError
| AccessDeniedException (detail : string)
| NotFoundException (detail : string)
| UnboundLocalError (name : string)
| ZeroDivisionError
| OverflowError
| OtherError (detail : string).

(** [str(e)] and [e.message]. *)
Definition exn_str (e : Exn) : string :=
  match e with
  | CommandException r => "CommandException: " +:+ r
  | ItemExistsError => ""
  | AccessDeniedException d => d
  | NotFoundException d => d
  | UnboundLocalError n =>
      "local variable '" +:+ n +:+ "' referenced before assignment"
  | ZeroDivisionError => "float division by zero"
  | OverflowError => "long int too large to convert to float"
  | OtherError d => d
  end.

Definition is_ItemExistsError (e : Exn) : bool :=
  match e with ItemExistsError => true | _ => false end.


Definition is_NotFoundException (e : Exn) : bool :=
  match e with NotFoundException _ => true | _ => false end.

Definition is_ZeroDivisionError (e : Exn) : bool :=
  match e with ZeroDivisionError => true | _ => false end.

(** The result of running a piece of Python: a value or a raised exception. *)
Inductive Outcome (A : Type) : Type :=
| Returned (a : A)
| Raised (e : Exn).
Arguments Returned {A} a.
Arguments Raised {A} e.

Definition is_Raised {A} (o : Outcome A) : bool :=
  match o with Raised _ => true | Returned _ => false end.

(** [float(n)] raises [OverflowError] when the integer is beyond the range
    of a double. *)
Definition py_float (n : Z) : Outcome float :=
  let f := float_of_int n in
  if PrimFloat.is_infinity f then Raised OverflowError else Returned f.

(** [a / b] on floats raises [ZeroDivisionError] exactly when [b == 0.0]
    (both signed zeros compare equal to it). *)
Definition py_float_div (a b : float) : Outcome float :=
  if PrimFloat.eqb b 0%float then Raised ZeroDivisionError
  else Returned (PrimFloat.div a b).

(** ** Storage URLs and name expansion results

    A [StorageUrl] object, as [CopyFunc] and [RunCommand] observe it: its
    attributes and the answers of its predicates.  No relation between the
    fields is assumed. *)
Record StorageUrl : Type := mkStorageUrl {
  scheme : string;
  bucket_name : string;
  object_name : string;
  generation : option string;
  IsFileUrl : bool;
  IsCloudUrl : bool;
  IsProvider : bool;
  IsBucket : bool;
  HasGeneration : bool;
  GetUrlString : string
}.

(** One item of the name expansion iterator. *)
Record NameExpansionResult : Type := mkNameExpansionResult {
  GetSrcUrlStr : string;
  GetExpandedUrlStr : string;
  NamesContainer : bool;
  IsMultiSrcRequest : bool;
  HaveExistingDstContainer : option bool
}.

(** The options tuple filled in by [_ParseOpts]. *)
Record OptsTuple : Type := mkOptsTuple {
  perform_mv : bool;
  no_clobber : bool;
  daisy_chain : bool;
  read_args_from_stdin : bool;
  print_ver : bool;
  use_manifest : bool;
  preserve_acl : bool;
  canned_acl : option string
}.

(** The attributes of the command object that [CopyFunc] only reads. *)
Record Self : Type := mkSelf {
  command_name : string;
  continue_on_error : bool;
  debug : Z;
  exp_dst_url : StorageUrl;
  have_existing_dst_container : bool
}.

(** What [PerformCopy] returns:
    [(elapsed_time, bytes_transferred, result_url, md5)]. *)
Record CopyResult : Type := mkCopyResult {
  cr_elapsed_time : float;
  cr_bytes_transferred : Z;
  cr_result_url : StorageUrl;
  cr_md5 : option string
}.

(** ** The manifest *)

Inductive ResultTag : Type := TagOK | TagSkip | TagError.

Definition tag_str (t : ResultTag) : string :=
  match t with TagOK => "OK" | TagSkip => "skip" | TagError => "error" end.

Record ManifestEntry : Type := mkManifestEntry {
  me_destination : string;
  me_bytes : Z;
  me_md5 : option string;
  me_result : option ResultTag;
  me_description : option string
}.

Definition empty_entry : ManifestEntry :=
  mkManifestEntry "" 0%Z None None None.

Module Manifest.

(** Modelled from the spec: the class [Manifest] of [gslib/copy_helper.py],
    which is not among the sources.  The manifest is a record of per-item
    outcomes keyed by the expanded source identifier, with at most one
    entry per key; an entry holds the destination, the bytes transferred,
    the checksum, the outcome tag and the failure detail.  (Timestamps and
    upload ids, which [CopyFunc] never touches, are left out.) *)
Definition t : Type := gmap string ManifestEntry.

(** Modelled from the spec: [ManifestLog.wasAlreadyHandled]: the manifest
    already records a successful or skipped outcome for this source. *)
Definition WasSuccessful (m : gmap string ManifestEntry) (src : string)
  : bool :=
  match m !! src with
  | Some e =>
      match me_result e with
      | Some TagOK | Some TagSkip => true
      | Some TagError | None => false
      end
  | None => false
  end.

(** Modelled from the spec: opens the entry of an item about to be
    transferred, recording its destination. *)
Definition Initialize (m : gmap string ManifestEntry) (src dst : string)
  : gmap string ManifestEntry :=
  <[src := mkManifestEntry dst 0%Z None None None]> m.

(** Modelled from the spec: [ManifestLog.recordChecksum]. *)
Definition SetMd5 (m : gmap string ManifestEntry) (src md5 : string)
  : gmap string ManifestEntry :=
  let e := default empty_entry (m !! src) in
  <[src := mkManifestEntry (me_destination e) (me_bytes e) (Some md5)
                           (me_result e) (me_description e)]> m.

(** Modelled from the spec: [ManifestLog.recordOutcome]. *)
Definition SetResult (m : gmap string ManifestEntry) (src : string)
    (bytes : Z) (tag : ResultTag) (description : option string)
  : gmap string ManifestEntry :=
  let e := default empty_entry (m !! src) in
  <[src := mkManifestEntry (me_destination e) bytes (me_md5 e)
                           (Some tag) description]> m.

End Manifest.

(** ** Collaborators, history and state *)

Inductive LogLevel : Type := LogDebug | LogInfo | LogWarning | LogError.

(** The calls that leave the command object, in the order they happen. *)
Inductive Event : Type :=
| EvLog (level : LogLevel) (message : string)
| EvNameExpansionIterator (url_strs : list string)
    (recursion_requested all_versions : bool)
| EvMakedirs (path : string)
| EvConstructDstUrl (exp_src_url dst_url : StorageUrl)
| EvPerformCopy (exp_src_url dst_url : StorageUrl)
    (result : Outcome CopyResult)
| EvSetAcl (dst_url_str : string)
| EvDeleteObject (bucket object : string) (gen : option string)
    (provider : string)
| EvUnlink (path : string).

(** The functions of [gslib.copy_helper], [gslib.storage_url], the cloud
    API, the command base class and [os] that [CopyFunc] calls.  Those with
    side effects or that read the outside world answer as a function of the
    history so far; [None] is a normal return, [Some e] raises [e]. *)
Record Env : Type := mkEnv {
  StorageUrlFromString : string → StorageUrl;
  ContainsWildcard : string → bool;
  InsistDstUrlNamesContainer :
    StorageUrl → bool → string → option Exn;
  ConstructDstUrl :
    StorageUrl → StorageUrl → bool → bool → bool → StorageUrl →
    option bool → StorageUrl;
  FixWindowsNaming : StorageUrl → StorageUrl → StorageUrl;
  CheckForDirFileConflict :
    list Event → StorageUrl → StorageUrl → option Exn;
  SrcDstSame : StorageUrl → StorageUrl → bool;
  PerformCopy :
    list Event → StorageUrl → StorageUrl → Outcome CopyResult;
  IsNoClobberServerException : Exn → bool;
  SetAclFunc : list Event → string → option Exn;
  DeleteObject :
    list Event → string → string → option string → string → option Exn;
  os_path_exists : list Event → string → bool;
  os_makedirs : list Event → string → option Exn;
  os_unlink : list Event → string → option Exn
}.

(** The mutable part of a run: the manifest, the attributes of the command
    object that workers update, and the history. *)
Record State : Type := mkState {
  manifest : gmap string ManifestEntry;
  copy_failure_count : Z;
  total_elapsed_time : float;
  total_bytes_transferred : Z;
  recursion_requested : bool;
  history : list Event
}.

Definition set_manifest (m : gmap string ManifestEntry) (st : State)
  : State :=
  mkState m (copy_failure_count st) (total_elapsed_time st)
          (total_bytes_transferred st) (recursion_requested st) (history st).

Definition set_copy_failure_count (n : Z) (st : State) : State :=
  mkState (manifest st) n (total_elapsed_time st)
          (total_bytes_transferred st) (recursion_requested st) (history st).

Definition set_total_elapsed_time (t : float) (st : State) : State :=
  mkState (manifest st) (copy_failure_count st) t
          (total_bytes_transferred st) (recursion_requested st) (history st).

Definition set_total_bytes_transferred (n : Z) (st : State) : State :=
  mkState (manifest st) (copy_failure_count st) (total_elapsed_time st)
          n (recursion_requested st) (history st).

Definition set_recursion_requested (b : bool) (st : State) : State :=
  mkState (manifest st) (copy_failure_count st) (total_elapsed_time st)
          (total_bytes_transferred st) b (history st).

Definition record_event (ev : Event) (st : State) : State :=
  mkState (manifest st) (copy_failure_count st) (total_elapsed_time st)
          (total_bytes_transferred st) (recursion_requested st)
          (history st ++ [ev]).

(** ** The monad of the embedding *)

Definition M (A : Type) : Type := State → Outcome A * State.

Definition ret {A} (a : A) : M A := λ st, (Returned a, st).

Definition raise {A} (e : Exn) : M A := λ st, (Raised e, st).

Definition bind {A B} (c : M A) (k : A → M B) : M B :=
  λ st, match c st with
        | (Returned a, st') => k a st'
        | (Raised e, st') => (Raised e, st')
        end.

Notation "'do' x <- c ;; k" := (bind c (λ x, k))
  (at level 10, x name, c at level 99, k at level 200,
   format "'[v' 'do'  x  <-  c  ;; '/' k ']'").
Notation "'run' c ;; k" := (bind c (λ _, k))
  (at level 10, c at level 99, k at level 200,
   format "'[v' 'run'  c  ;; '/' k ']'").

(** [try: c except Exception, e: h e] *)
Definition try_except {A} (c : M A) (h : Exn → M A) : M A :=
  λ st, match c st with
        | (Returned a, st') => (Returned a, st')
        | (Raised e, st') => h e st'
        end.

Definition get : M State := λ st, (Returned st, st).

Definition modify (f : State → State) : M unit := λ st, (Returned tt, f st).

Definition when (b : bool) (c : M unit) : M unit := if b then c else ret tt.

(** A call whose only result is to return or to raise. *)
Definition call (ev : Event) (answer : list Event → option Exn) : M unit :=
  λ st, match answer (history st) with
        | None => (Returned tt, record_event ev st)
        | Some e => (Raised e, record_event ev st)
        end.

Definition logger (level : LogLevel) (message : string) : M unit :=
  modify (record_event (EvLog level message)).

(** [if x:] on an optional string: [None] and the empty string are false. *)
Definition truthy (s : option string) : bool :=
  match s with
  | Some s' => negb (String.eqb s' "")
  | None => false
  end.

(** ** [CpCommand.CopyFunc] *)

Section CopyFunc.

Context (env : Env) (opts_tuple : OptsTuple) (self : Self).

(** The skip branches of the handler: log, and record in the manifest. *)
Definition record_skip (exp_src_url : StorageUrl) (message : string)
  : M unit :=
  run logger LogInfo message ;;
  when (use_manifest opts_tuple)
    (modify (λ st, set_manifest
       (Manifest.SetResult (manifest st) (GetUrlString exp_src_url) 0%Z
          TagSkip (Some message)) st)).

(** The [except] clauses of the transfer (lines 594-617).  The three local
    variables keep the values they had when the exception was raised:
    [elapsed_time = bytes_transferred = 0] and [result_url] unassigned. *)
Definition copy_except (src_url exp_src_url dst_url : StorageUrl) (e : Exn)
  : M (float * Z * option StorageUrl) :=
  let unassigned := (0%float, 0%Z, @None StorageUrl) in
  if is_ItemExistsError e then
    run record_skip exp_src_url
          ("Skipping existing item: " +:+ GetUrlString dst_url) ;;
    ret unassigned
  else if IsNoClobberServerException env e then
    run record_skip exp_src_url
          ("Rejected (noclobber): " +:+ GetUrlString dst_url) ;;
    ret unassigned
  else if continue_on_error self then
    let message :=
      "Error copying " +:+ GetUrlString src_url +:+ ": " +:+ exn_str e in
    run modify (λ st,
          set_copy_failure_count (copy_failure_count st + 1)%Z st) ;;
    run logger LogError message ;;
    run when (use_manifest opts_tuple)
          (modify (λ st, set_manifest
             (Manifest.SetResult (manifest st) (GetUrlString exp_src_url)
                0%Z TagError (Some message)) st)) ;;
    ret unassigned
  else
    run when (use_manifest opts_tuple)
          (modify (λ st, set_manifest
             (Manifest.SetResult (manifest st) (GetUrlString exp_src_url)
                0%Z TagError (Some (exn_str e))) st)) ;;
    raise e.

(** The body of the [try] (lines 584-593). *)
Definition copy_try (exp_src_url dst_url : StorageUrl)
  : M (float * Z * option StorageUrl) :=
  run when (use_manifest opts_tuple)
        (modify (λ st, set_manifest
           (Manifest.Initialize (manifest st) (GetUrlString exp_src_url)
              (GetUrlString dst_url)) st)) ;;
  do r <- (λ st,
           let r := PerformCopy env (history st) exp_src_url dst_url in
           (r, record_event (EvPerformCopy exp_src_url dst_url r) st)) ;;
  run when (use_manifest opts_tuple)
        (modify (λ st,
           let m := if truthy (cr_md5 r)
                    then Manifest.SetMd5 (manifest st)
                           (GetUrlString exp_src_url)
                           (default "" (cr_md5 r))
                    else manifest st in
           set_manifest
             (Manifest.SetResult m (GetUrlString exp_src_url)
                (cr_bytes_transferred r) TagOK None) st)) ;;
  ret (cr_elapsed_time r, cr_bytes_transferred r, Some (cr_result_url r)).

(** Lines 582-617: the transfer and the classification of its failure. *)
Definition copy_transfer (src_url exp_src_url dst_url : StorageUrl)
  : M (float * Z * option StorageUrl) :=
  try_except (copy_try exp_src_url dst_url)
             (copy_except src_url exp_src_url dst_url).

(** Lines 637-645: the removal of the source of a move. *)
Definition remove_source (exp_src_url : StorageUrl) : M unit :=
  run logger LogInfo ("Removing " +:+ GetUrlString exp_src_url +:+ "...") ;;
  if IsCloudUrl exp_src_url then
    call (EvDeleteObject (bucket_name exp_src_url) (object_name exp_src_url)
            (generation exp_src_url) (scheme exp_src_url))
         (λ h, DeleteObject env h (bucket_name exp_src_url)
                 (object_name exp_src_url) (generation exp_src_url)
                 (scheme exp_src_url))
  else
    call (EvUnlink (object_name exp_src_url))
         (λ h, os_unlink env h (object_name exp_src_url)).

(** Lines 647-649: the block under [stats_lock]. *)
Definition add_stats (elapsed_time : float) (bytes_transferred : Z)
    (st : State) : State :=
  set_total_bytes_transferred
    (total_bytes_transferred st + bytes_transferred)%Z
    (set_total_elapsed_time
       (PrimFloat.add (total_elapsed_time st) elapsed_time) st).

(** Lines 619-649: what follows the transfer. *)
Definition copy_finish (exp_src_url dst_url : StorageUrl)
    (locals : float * Z * option StorageUrl) : M unit :=
  let '(elapsed_time, bytes_transferred, result_url) := locals in
  run when (print_ver opts_tuple)
        (match result_url with
         | Some u => logger LogInfo ("Created: " +:+ GetUrlString u)
         | None => raise (UnboundLocalError "result_url")
         end) ;;
  run when (truthy (canned_acl opts_tuple))
        (call (EvSetAcl (GetUrlString dst_url))
              (λ h, SetAclFunc env h (GetUrlString dst_url))) ;;
  run when (perform_mv opts_tuple) (remove_source exp_src_url) ;;
  modify (add_stats elapsed_time bytes_transferred).

(** A test that may raise and leaves no trace of its own. *)
Definition check (answer : list Event → option Exn) : M unit :=
  λ st, match answer (history st) with
        | None => (Returned tt, st)
        | Some e => (Raised e, st)
        end.

Definition nl : string := String (Ascii.ascii_of_nat 10) EmptyString.

Definition dq : string := String (Ascii.ascii_of_nat 34) EmptyString.

(** The name of the command in messages (lines 518-521). *)
Definition cmd_name : string :=
  if perform_mv opts_tuple then "mv" else command_name self.

(** Lines 565-568: the destination of an item. *)
Definition resolve_dst_url (name_expansion_result : NameExpansionResult)
  : StorageUrl :=
  let src_url :=
    StorageUrlFromString env (GetSrcUrlStr name_expansion_result) in
  let exp_src_url :=
    StorageUrlFromString env (GetExpandedUrlStr name_expansion_result) in
  let src_url_names_container := NamesContainer name_expansion_result in
  let src_url_expands_to_multi := NamesContainer name_expansion_result in
  let have_multiple_srcs := IsMultiSrcRequest name_expansion_result in
  let have_existing_dest_subdir :=
    HaveExistingDstContainer name_expansion_result in
  FixWindowsNaming env src_url
    (ConstructDstUrl env src_url exp_src_url src_url_names_container
       src_url_expands_to_multi have_multiple_srcs (exp_dst_url self)
       have_existing_dest_subdir).

(** Lines 532-538: the guards that precede the look-up in the manifest. *)
Definition check_source (name_expansion_result : NameExpansionResult)
  : M unit :=
  let src_url :=
    StorageUrlFromString env (GetSrcUrlStr name_expansion_result) in
  let have_multiple_srcs := IsMultiSrcRequest name_expansion_result in
  if IsCloudUrl src_url && IsProvider src_url then
    raise (CommandException
             ("The " +:+ cmd_name +:+
              " command does not allow provider-only source URLs (" +:+
              GetUrlString src_url +:+ ")"))
  else
    when have_multiple_srcs
      (check (λ _, InsistDstUrlNamesContainer env (exp_dst_url self)
                     (have_existing_dst_container self) cmd_name)).

(** Lines 544-570: the rules of [mv] on directories, the creation of a
    local destination directory, the naming of the destination and the test
    for a directory/file conflict.  Returns [dst_url]. *)
Definition prepare_destination (name_expansion_result : NameExpansionResult)
  : M StorageUrl :=
  let src_url_str := GetSrcUrlStr name_expansion_result in
  let exp_src_url :=
    StorageUrlFromString env (GetExpandedUrlStr name_expansion_result) in
  let have_multiple_srcs := IsMultiSrcRequest name_expansion_result in
  run when (perform_mv opts_tuple && NamesContainer name_expansion_result)
        (run modify (set_recursion_requested true) ;;
         if ContainsWildcard env src_url_str then
           raise (CommandException
                    ("The mv command disallows naming source " +:+
                     "directories using wildcards"))
         else ret tt) ;;
  do st <- get ;;
  run when (IsFileUrl (exp_dst_url self)
            && negb (os_path_exists env (history st)
                       (object_name (exp_dst_url self)))
            && have_multiple_srcs)
        (call (EvMakedirs (object_name (exp_dst_url self)))
              (λ h, os_makedirs env h (object_name (exp_dst_url self)))) ;;
  let dst_url := resolve_dst_url name_expansion_result in
  run modify (record_event (EvConstructDstUrl exp_src_url dst_url)) ;;
  run check (λ h, CheckForDirFileConflict env h exp_src_url dst_url) ;;
  ret dst_url.

(** Lines 571-580: the source is the destination, or the destination names
    a version. *)
Definition reject_conflicts (exp_src_url dst_url : StorageUrl) : M unit :=
  if SrcDstSame env exp_src_url dst_url then
    raise (CommandException
             (cmd_name +:+ ": " +:+ dq +:+ GetUrlString exp_src_url +:+
              dq +:+ " and " +:+ dq +:+ GetUrlString dst_url +:+ dq +:+
              " are the same file - abort."))
  else if IsCloudUrl dst_url && HasGeneration dst_url then
    raise (CommandException
             (cmd_name +:+ ": a version-specific URL" +:+ nl +:+ "(" +:+
              GetUrlString dst_url +:+ ")" +:+ nl +:+
              "cannot be the destination for gsutil cp - abort."))
  else ret tt.

(** Lines 544-649: an item that the manifest does not short-circuit. *)
Definition copy_item (name_expansion_result : NameExpansionResult)
  : M unit :=
  let src_url :=
    StorageUrlFromString env (GetSrcUrlStr name_expansion_result) in
  let exp_src_url :=
    StorageUrlFromString env (GetExpandedUrlStr name_expansion_result) in
  do dst_url <- prepare_destination name_expansion_result ;;
  run reject_conflicts exp_src_url dst_url ;;
  do locals <- copy_transfer src_url exp_src_url dst_url ;;
  copy_finish exp_src_url dst_url locals.

(** Lines 510-649. *)
Definition CopyFunc (name_expansion_result : NameExpansionResult)
  : M unit :=
  let exp_src_url :=
    StorageUrlFromString env (GetExpandedUrlStr name_expansion_result) in
  run check_source name_expansion_result ;;
  do st <- get ;;
  if use_manifest opts_tuple
     && Manifest.WasSuccessful (manifest st) (GetUrlString exp_src_url)
  then ret tt
  else copy_item name_expansion_result.

(** [_CopyFuncWrapper] *)
Definition _CopyFuncWrapper (args : NameExpansionResult) : M unit :=
  CopyFunc args.

(** [_CopyExceptionHandler] (lines 453-458); the text of the traceback is
    not modelled. *)
Definition _CopyExceptionHandler (e : Exn) : M unit :=
  run logger LogError (exn_str e) ;;
  run modify (λ st,
        set_copy_failure_count (copy_failure_count st + 1)%Z st) ;;
  logger LogDebug "Encountered exception while copying".

End CopyFunc.

(** ** The worker pool *)

(** Modelled from the spec: [Command.Apply] of [gslib/command.py], which is
    not among the sources, for one worker.  The items are submitted in the
    order of the iterator.  The spec describes two ways in which the pool
    takes the failure of an item, and [fail_on_error] selects between them:
    when it is honoured, the failure propagates and no further item is
    scheduled; when it is not, the failure is handed to the exception
    handler and the remaining items are still processed, which is what the
    help text of [-c] says of [gsutil -m cp].  Which of the two a given
    call gets is decided inside [Command.Apply]. *)
Fixpoint Apply (func : NameExpansionResult → M unit)
    (args_iterator : list NameExpansionResult)
    (exception_handler : Exn → M unit) (fail_on_error : bool) : M unit :=
  match args_iterator with
  | [] => ret tt
  | args :: rest =>
      λ st, match func args st with
            | (Returned _, st') =>
                Apply func rest exception_handler fail_on_error st'
            | (Raised e, st') =>
                if fail_on_error then (Raised e, st')
                else (run exception_handler e ;;
                      Apply func rest exception_handler fail_on_error) st'
            end
  end.

(** The accounting of a pool of concurrent workers.  Each item that reaches
    the end of [CopyFunc] adds its two values under [stats_lock], so the
    block runs atomically; [order] lists the values in the order in which
    the workers obtained the lock. *)
Definition drain_stats (order : list (float * Z)) (st : State) : State :=
  fold_left (λ s c, add_stats (fst c) (snd c) s) order st.

Definition sum_bytes (order : list (float * Z)) : Z :=
  fold_right (λ c acc, (snd c + acc)%Z) 0%Z order.

(** The bytes that the backend reported for the transfers in a history. *)
Definition bytes_reported (h : list Event) : Z :=
  fold_right (λ ev acc,
                match ev with
                | EvPerformCopy _ _ (Returned r) =>
                    (cr_bytes_transferred r + acc)%Z
                | _ => acc
                end) 0%Z h.

(** The elapsed times that the backend reported, added up in the order of
    the history; a transfer that raised leaves [elapsed_time = 0]. *)
Definition elapsed_reported (t : float) (h : list Event) : float :=
  fold_left (λ acc ev,
               match ev with
               | EvPerformCopy _ _ (Returned r) =>
                   PrimFloat.add acc (cr_elapsed_time r)
               | EvPerformCopy _ _ (Raised _) => PrimFloat.add acc 0%float
               | _ => acc
               end) h t.

(** ** [CpCommand.RunCommand] *)

Record BucketVersioning : Type := mkBucketVersioning {
  enabled : option bool
}.

Record Bucket : Type := mkBucket {
  versioning : option BucketVersioning
}.

(** The collaborators of [RunCommand].  [exn_message e] is the attribute
    [e.message], which the exception classes define outside this file and
    which need not be [str(e)]. *)
Record RunEnv : Type := mkRunEnv {
  CatUrlStrings : list string → Outcome Z;
  StdinIterator : list string;
  ExpandDstUrl : string → Outcome (StorageUrl * bool);
  GetBucket : string → string → Outcome Bucket;
  NameExpansionIterator :
    list string → bool → bool → bool → list NameExpansionResult;
  time_time : list Event → float;
  MakeHumanReadable : float → string;
  format_5_3f : float → string;
  exn_message : Exn → string
}.

(** Lines 754-761: the exit policy. *)
Definition failure_message (count : Z) : string :=
  let plural_str := if (1 <? count)%Z then "s" else "" in
  pretty count +:+ " file" +:+ plural_str +:+ "/object" +:+ plural_str +:+
  " could not be transferred.".

Definition exit_policy (count : Z) : Outcome Z :=
  if negb (count =? 0)%Z then Raised (CommandException (failure_message count))
  else Returned 0%Z.

(** Lines 737-740: the guard against a zero elapsed time. *)
Definition floor_elapsed_time (bytes : float) (elapsed : float) : float :=
  match py_float_div bytes elapsed with
  | Raised ZeroDivisionError => 0.01%float
  | _ => elapsed
  end.

Section RunCommand.

Context (env : Env) (renv : RunEnv) (opts_tuple : OptsTuple).
Context (the_command_name : string) (the_continue_on_error : bool)
        (the_debug : Z).

(** [_GetBucketWithVersioningConfig] (lines 832-860). *)
Definition _GetBucketWithVersioningConfig (exp_dst_url : StorageUrl)
  : Outcome (option Bucket) :=
  if IsCloudUrl exp_dst_url && IsBucket exp_dst_url then
    match GetBucket renv (bucket_name exp_dst_url) (scheme exp_dst_url) with
    | Returned bucket => Returned (Some bucket)
    | Raised (AccessDeniedException d) => Raised (AccessDeniedException d)
    | Raised (NotFoundException _) =>
        Raised (CommandException
                  ("Destination bucket " +:+ GetUrlString exp_dst_url +:+
                   " does not exist."))
    | Raised e =>
        Raised (CommandException
                  ("Error retrieving destination bucket " +:+
                   GetUrlString exp_dst_url +:+ ": " +:+
                   exn_message renv e))
    end
  else Returned None.

(** [bucket and bucket.versioning and bucket.versioning.enabled] *)
Definition versioning_enabled (bucket : option Bucket) : bool :=
  match bucket with
  | Some b =>
      match versioning b with
      | Some v => match enabled v with Some true => true | _ => false end
      | None => false
      end
  | None => false
  end.

(** Lines 683-698: the choice of [all_versions]. *)
Definition probe_all_versions (exp_dst_url : StorageUrl) : Outcome bool :=
  match _GetBucketWithVersioningConfig exp_dst_url with
  | Returned bucket => Returned (versioning_enabled bucket)
  | Raised (AccessDeniedException _) => Returned true
  | Raised e => Raised e
  end.

Definition lift {A} (o : Outcome A) : M A := λ st, (o, st).

(** Lines 731-761: what [RunCommand] does once the pool has drained. *)
Definition finish_run (start_time : float) : M Z :=
  do st <- get ;;
  run logger LogDebug
        ("total_bytes_transferred: " +:+ pretty (total_bytes_transferred st)) ;;
  do st <- get ;;
  let end_time := time_time renv (history st) in
  run modify (set_total_elapsed_time (PrimFloat.sub end_time start_time)) ;;
  do bytes <- lift (py_float (total_bytes_transferred st)) ;;
  do st <- get ;;
  run modify (set_total_elapsed_time
                (floor_elapsed_time bytes (total_elapsed_time st))) ;;
  do st <- get ;;
  do bytes <- lift (py_float (total_bytes_transferred st)) ;;
  do total_bytes_per_second <-
    lift (py_float_div bytes (total_elapsed_time st)) ;;
  run when ((the_debug =? 3)%Z
            && negb (total_bytes_transferred st =? 0)%Z)
        (logger LogInfo
           ("Total bytes copied=" +:+ pretty (total_bytes_transferred st) +:+
            ", total elapsed time=" +:+
            format_5_3f renv (total_elapsed_time st) +:+ " secs (" +:+
            MakeHumanReadable renv total_bytes_per_second +:+ "ps)")) ;;
  lift (exit_policy (copy_failure_count st)).

(** Lines 653-761. [opts_tuple] is what [_ParseOpts] returned. *)
Definition RunCommand (args : list string) : M Z :=
  run modify (λ st,
        set_total_bytes_transferred 0%Z (set_total_elapsed_time 0%float st)) ;;
  match last args with
  | None => raise (OtherError "list index out of range")
  | Some dst_arg =>
      if String.eqb dst_arg "-" || String.eqb dst_arg "file://-" then
        lift (CatUrlStrings renv (removelast args))
      else
        do url_strs <-
          (if read_args_from_stdin opts_tuple then
             if negb (length args =? 1)%nat then
               raise (CommandException
                        "Source URLs cannot be specified with -I option")
             else ret (StdinIterator renv)
           else
             if (length args <? 2)%nat then
               raise (CommandException
                        ("Wrong number of arguments for " +:+ dq +:+
                         "cp" +:+ dq +:+ " command."))
             else ret (removelast args)) ;;
        do dst <- lift (ExpandDstUrl renv dst_arg) ;;
        let exp_dst_url := fst dst in
        let have_existing_dst_container := snd dst in
        do all_versions <- lift (probe_all_versions exp_dst_url) ;;
        do st <- get ;;
        let recursion :=
          recursion_requested st || perform_mv opts_tuple in
        let name_expansion_iterator :=
          NameExpansionIterator renv url_strs recursion
            have_existing_dst_container all_versions in
        run modify (record_event
                      (EvNameExpansionIterator url_strs recursion
                         all_versions)) ;;
        let self :=
          mkSelf the_command_name the_continue_on_error the_debug
                 exp_dst_url have_existing_dst_container in
        run modify (set_copy_failure_count 0%Z) ;;
        do st <- get ;;
        let start_time := time_time renv (history st) in
        run Apply (_CopyFuncWrapper env opts_tuple self)
              name_expansion_iterator _CopyExceptionHandler true ;;
        finish_run start_time
  end.

End RunCommand.

(** ** A small world for the examples

    URLs are told apart by their text: ["gs://"] is a bare provider,
    ["gs://b"] a bucket, any other text that starts with ["gs://"] a cloud
    object (one that ends in ["#1"] names a version), anything else a local
    file.  The destination of an
    item is the destination of the command, and every collaborator succeeds
    unless said otherwise. *)
Module Scenario.

Definition parse (s : string) : StorageUrl :=
  if String.eqb s "gs://" then
    mkStorageUrl "gs" "" "" None false true true false false s
  else if String.eqb s "gs://b" then
    mkStorageUrl "gs" "b" "" None false true false true false s
  else if String.prefix "gs://" s then
    mkStorageUrl "gs" "bucket" s
      (if String.eqb (substring (String.length s - 2) 2 s) "#1"
       then Some "1" else None)
      false true false false
      (String.eqb (substring (String.length s - 2) 2 s) "#1") s
  else mkStorageUrl "file" "" s None true false false false false s.

Definition item (s : string) : NameExpansionResult :=
  mkNameExpansionResult s s false false None.

Definition done (bytes : Z) (elapsed : float) (dst : StorageUrl)
  : Outcome CopyResult :=
  Returned (mkCopyResult elapsed bytes dst (Some "md5")).

(** A world whose transfers answer [transfer]. *)
Definition world (transfer : StorageUrl → StorageUrl → Outcome CopyResult)
  : Env :=
  mkEnv parse
        (λ _, false)
        (λ _ _ _, None)
        (λ _ _ _ _ _ dst _, dst)
        (λ _ dst, dst)
        (λ _ _ _, None)
        (λ src dst, String.eqb (GetUrlString src) (GetUrlString dst))
        (λ _, transfer)
        (λ e, match e with
              | OtherError d => String.eqb d "PreconditionFailed"
              | _ => false
              end)
        (λ _ _, None)
        (λ _ _ _ _ _, None)
        (λ _ _, true)
        (λ _ _, None)
        (λ _ _, None).

(** Every transfer moves ten bytes in two seconds. *)
Definition fine : Env := world (λ _ dst, done 10 2 dst).

(** Every transfer finds the destination already there. *)
Definition exists_already : Env := world (λ _ _, Raised ItemExistsError).

(** Every transfer of ["gs://b/bad"] breaks; the others are fine. *)
Definition flaky : Env :=
  world (λ src dst,
           if String.eqb (GetUrlString src) "gs://b/bad"
           then Raised (OtherError "connection reset")
           else done 10 2 dst).

(** The clock advances by five seconds with every recorded call. *)
Definition run_world (probe : Outcome Bucket) : RunEnv :=
  mkRunEnv (λ _, Returned 0%Z)
           []
           (λ s, Returned (parse s, false))
           (λ _ _, probe)
           (λ url_strs _ _ _, map item url_strs)
           (λ h, float_of_int (100 + 5 * Z.of_nat (length h)))
           (λ _, "")
           (λ _, "")
           (λ e, match e with
                 | AccessDeniedException d | NotFoundException d
                 | OtherError d => d
                 | _ => ""
                 end).

Definition opts (mv ver man : bool) : OptsTuple :=
  mkOptsTuple mv false false false ver man false None.

Definition self_to (dst : string) (continue : bool) : Self :=
  mkSelf "cp" continue 0%Z (parse dst) false.

Definition fresh : State := mkState ∅ 0%Z 0%float 0%Z false [].

(** Variations of [fine]: every source text counts as a wildcard; the
    setting of an ACL is denied; the destination never names a container;
    no local path exists yet. *)
Definition wildcards : Env :=
  mkEnv parse (λ _, true) (InsistDstUrlNamesContainer fine)
        (ConstructDstUrl fine) (FixWindowsNaming fine)
        (CheckForDirFileConflict fine) (SrcDstSame fine) (PerformCopy fine)
        (IsNoClobberServerException fine) (SetAclFunc fine)
        (DeleteObject fine) (os_path_exists fine) (os_makedirs fine)
        (os_unlink fine).

Definition acl_denied : Env :=
  mkEnv parse (ContainsWildcard fine) (InsistDstUrlNamesContainer fine)
        (ConstructDstUrl fine) (FixWindowsNaming fine)
        (CheckForDirFileConflict fine) (SrcDstSame fine) (PerformCopy fine)
        (IsNoClobberServerException fine)
        (λ _ _, Some (AccessDeniedException "acl"))
        (DeleteObject fine) (os_path_exists fine) (os_makedirs fine)
        (os_unlink fine).

Definition no_container : Env :=
  mkEnv parse (ContainsWildcard fine)
        (λ _ _ _, Some (CommandException "destination must name a container"))
        (ConstructDstUrl fine) (FixWindowsNaming fine)
        (CheckForDirFileConflict fine) (SrcDstSame fine) (PerformCopy fine)
        (IsNoClobberServerException fine) (SetAclFunc fine)
        (DeleteObject fine) (os_path_exists fine) (os_makedirs fine)
        (os_unlink fine).

Definition missing_dir : Env :=
  mkEnv parse (ContainsWildcard fine) (InsistDstUrlNamesContainer fine)
        (ConstructDstUrl fine) (FixWindowsNaming fine)
        (CheckForDirFileConflict fine) (SrcDstSame fine) (PerformCopy fine)
        (IsNoClobberServerException fine) (SetAclFunc fine)
        (DeleteObject fine) (λ _ _, false)
        (λ _ _, Some (OtherError "permission denied"))
        (os_unlink fine).

Definition directory (s : string) : NameExpansionResult :=
  mkNameExpansionResult s s true true None.

End Scenario.

(** ** Observations on outcomes and histories *)

Definition raises_ZeroDivisionError {A} (o : Outcome A) : bool :=
  match o with
  | Raised e => is_ZeroDivisionError e
  | Returned _ => false
  end.

Definition is_transfer (ev : Event) : bool :=
  match ev with EvPerformCopy _ _ _ => true | _ => false end.

Definition is_removal (ev : Event) : bool :=
  match ev with
  | EvDeleteObject _ _ _ _ | EvUnlink _ => true
  | _ => false
  end.

Definition is_naming (ev : Event) : bool :=
  match ev with EvConstructDstUrl _ _ => true | _ => false end.

(** The events that a computation added to the history. *)
Definition new_events (st st' : State) : list Event :=
  drop (length (history st)) (history st').

(** An item that passes the guards, is not short-circuited by the manifest,
    gets its destination [dst_url] and passes the conflict tests: [CopyFunc]
    is about to call the transfer backend, in state [st1]. *)
Definition reaches_transfer (env : Env) (opts_tuple : OptsTuple)
    (self : Self) (name_expansion_result : NameExpansionResult)
    (st : State) (dst_url : StorageUrl) (st1 : State) : Prop :=
  let exp_src_url :=
    StorageUrlFromString env (GetExpandedUrlStr name_expansion_result) in
  check_source env opts_tuple self name_expansion_result st
  = (Returned tt, st)
  ∧ use_manifest opts_tuple
    && Manifest.WasSuccessful (manifest st) (GetUrlString exp_src_url)
    = false
  ∧ prepare_destination env opts_tuple self name_expansion_result st
    = (Returned dst_url, st1)
  ∧ reject_conflicts env opts_tuple self exp_src_url dst_url st1
    = (Returned tt, st1).

(** The failures of a transfer that the handler turns into a skip. *)
Definition is_skip (env : Env) (e : Exn) : bool :=
  is_ItemExistsError e || IsNoClobberServerException env e.

(** The call that removes the source of a move. *)
Definition removal_event (exp_src_url : StorageUrl) : Event :=
  if IsCloudUrl exp_src_url then
    EvDeleteObject (bucket_name exp_src_url) (object_name exp_src_url)
      (generation exp_src_url) (scheme exp_src_url)
  else EvUnlink (object_name exp_src_url).

(** ** [CpCommand._ParseOpts] *)

(** What [_ParseOpts] builds and what it sets on the command object:
    the options tuple, its attribute [continue_on_error] (which
    [OptsTuple] leaves out because nothing reads it), and the attributes
    of [self].  [ps_manifest] is the file name handed to the constructor
    [Manifest]; [ps_log] collects the calls to the logger and
    [ps_logger_level] the level set by [-q]. *)
Record ParseState : Type := mkParseState {
  ps_opts : OptsTuple;
  ps_opts_continue_on_error : bool;
  ps_exclude_symlinks : bool;
  ps_continue_on_error : bool;
  ps_canned : option bool;
  ps_def_acl : option bool;
  ps_acl_arg : option string;
  ps_recursion_requested : bool;
  ps_manifest : option string;
  ps_logger_level : option LogLevel;
  ps_log : list Event
}.

Definition with_opts (f : OptsTuple → OptsTuple) (p : ParseState)
  : ParseState :=
  mkParseState (f (ps_opts p)) (ps_opts_continue_on_error p)
    (ps_exclude_symlinks p) (ps_continue_on_error p) (ps_canned p)
    (ps_def_acl p) (ps_acl_arg p) (ps_recursion_requested p) (ps_manifest p)
    (ps_logger_level p) (ps_log p).

Definition opt_a (a : string) (p : ParseState) : ParseState :=
  let o := ps_opts p in
  mkParseState
    (mkOptsTuple (perform_mv o) (no_clobber o) (daisy_chain o)
       (read_args_from_stdin o) (print_ver o) (use_manifest o)
       (preserve_acl o) (Some a))
    (ps_opts_continue_on_error p) (ps_exclude_symlinks p)
    (ps_continue_on_error p) (Some true) (Some false) (Some a)
    (ps_recursion_requested p) (ps_manifest p) (ps_logger_level p)
    (ps_log p).

Definition opt_c (p : ParseState) : ParseState :=
  mkParseState (ps_opts p) (ps_opts_continue_on_error p)
    (ps_exclude_symlinks p) true (ps_canned p) (ps_def_acl p) (ps_acl_arg p)
    (ps_recursion_requested p) (ps_manifest p) (ps_logger_level p)
    (ps_log p).

Definition opt_D : ParseState → ParseState :=
  with_opts (λ o, mkOptsTuple (perform_mv o) (no_clobber o) true
                    (read_args_from_stdin o) (print_ver o) (use_manifest o)
                    (preserve_acl o) (canned_acl o)).

Definition opt_e (p : ParseState) : ParseState :=
  mkParseState (ps_opts p) (ps_opts_continue_on_error p) true
    (ps_continue_on_error p) (ps_canned p) (ps_def_acl p) (ps_acl_arg p)
    (ps_recursion_requested p) (ps_manifest p) (ps_logger_level p)
    (ps_log p).

Definition opt_I : ParseState → ParseState :=
  with_opts (λ o, mkOptsTuple (perform_mv o) (no_clobber o) (daisy_chain o)
                    true (print_ver o) (use_manifest o) (preserve_acl o)
                    (canned_acl o)).

Definition opt_L (a : string) (p : ParseState) : ParseState :=
  let o := ps_opts p in
  mkParseState
    (mkOptsTuple (perform_mv o) (no_clobber o) (daisy_chain o)
       (read_args_from_stdin o) (print_ver o) true (preserve_acl o)
       (canned_acl o))
    (ps_opts_continue_on_error p) (ps_exclude_symlinks p)
    (ps_continue_on_error p) (ps_canned p) (ps_def_acl p) (ps_acl_arg p)
    (ps_recursion_requested p) (Some a) (ps_logger_level p) (ps_log p).

Definition opt_M : ParseState → ParseState :=
  with_opts (λ o, mkOptsTuple true (no_clobber o) (daisy_chain o)
                    (read_args_from_stdin o) (print_ver o) (use_manifest o)
                    (preserve_acl o) (canned_acl o)).

Definition opt_n : ParseState → ParseState :=
  with_opts (λ o, mkOptsTuple (perform_mv o) true (daisy_chain o)
                    (read_args_from_stdin o) (print_ver o) (use_manifest o)
                    (preserve_acl o) (canned_acl o)).

Definition opt_p : ParseState → ParseState :=
  with_opts (λ o, mkOptsTuple (perform_mv o) (no_clobber o) (daisy_chain o)
                    (read_args_from_stdin o) (print_ver o) (use_manifest o)
                    true (canned_acl o)).

Definition opt_q (p : ParseState) : ParseState :=
  mkParseState (ps_opts p) (ps_opts_continue_on_error p)
    (ps_exclude_symlinks p) (ps_continue_on_error p) (ps_canned p)
    (ps_def_acl p) (ps_acl_arg p) (ps_recursion_requested p) (ps_manifest p)
    (Some LogWarning)
    (ps_log p ++
     [EvLog LogWarning
        ("Warning: gsutil cp -q is deprecated, and will be removed in the " +:+
         "future." +:+ nl +:+ "Please use gsutil -q cp ... instead.")]).

Definition opt_r (p : ParseState) : ParseState :=
  mkParseState (ps_opts p) (ps_opts_continue_on_error p)
    (ps_exclude_symlinks p) (ps_continue_on_error p) (ps_canned p)
    (ps_def_acl p) (ps_acl_arg p) true (ps_manifest p) (ps_logger_level p)
    (ps_log p).

Definition opt_v : ParseState → ParseState :=
  with_opts (λ o, mkOptsTuple (perform_mv o) (no_clobber o) (daisy_chain o)
                    (read_args_from_stdin o) true (use_manifest o)
                    (preserve_acl o) (canned_acl o)).

(** The body of the loop over [self.sub_opts] (lines 791-826): three
    chains of tests on the option letter, in the order of the source. *)
Definition parse_opt (p : ParseState) (oa : string * string) : ParseState :=
  let o := fst oa in
  let a := snd oa in
  let p1 := if String.eqb o "-a" then opt_a a p else p in
  let p2 :=
    if String.eqb o "-c" then opt_c p1
    else if String.eqb o "-D" then opt_D p1
    else if String.eqb o "-e" then opt_e p1
    else if String.eqb o "-I" then opt_I p1
    else if String.eqb o "-L" then opt_L a p1
    else if String.eqb o "-M" then opt_M p1
    else if String.eqb o "-n" then opt_n p1
    else p1 in
  if String.eqb o "-p" then opt_p p2
  else if String.eqb o "-q" then opt_q p2
  else if String.eqb o "-r" || String.eqb o "-R" then opt_r p2
  else if String.eqb o "-v" then opt_v p2
  else p2.

(** Lines 764-789: the state before the loop.  [recursion_requested] was
    initialised by the base class. *)
Definition parse_init (recursion_requested0 : bool) : ParseState :=
  mkParseState (mkOptsTuple false false false false false false false None)
    false false false None None None recursion_requested0 None None [].

(** [_ParseOpts] (lines 763-830): the options tuple, or the exception, and
    what has been set on the command object either way. *)
Definition _ParseOpts (sub_opts : list (string * string))
    (recursion_requested0 : bool) : Outcome OptsTuple * ParseState :=
  let p := fold_left parse_opt sub_opts (parse_init recursion_requested0) in
  if preserve_acl (ps_opts p) && truthy (canned_acl (ps_opts p)) then
    (Raised (CommandException
               "Specifying both the -p and -a options together is invalid."),
     p)
  else (Returned (ps_opts p), p).

(** [_RmExceptionHandler] (lines 461-463). *)
Definition _RmExceptionHandler (e : Exn) : M unit :=
  logger LogError (exn_str e).

(** Whether an option letter occurs, and the argument of its last
    occurrence. *)
Definition has_opt (o : string) (sub_opts : list (string * string)) : bool :=
  existsb (λ oa, String.eqb (fst oa) o) sub_opts.

Definition last_arg_from (init : option string) (o : string)
    (sub_opts : list (string * string)) : option string :=
  fold_left (λ acc oa, if String.eqb (fst oa) o then Some (snd oa) else acc)
            sub_opts init.

Definition last_arg (o : string) (sub_opts : list (string * string))
  : option string :=
  last_arg_from None o sub_opts.

(** The option letters that the loop of [_ParseOpts] tests. *)
Definition parsed_letters : list string :=
  ["-a"; "-c"; "-D"; "-e"; "-I"; "-L"; "-M"; "-n"; "-p"; "-q"; "-r"; "-R";
   "-v"].

Definition is_parsed (oa : string * string) : bool :=
  existsb (String.eqb (fst oa)) parsed_letters.

(** The transfers of a history that raised an exception which the handler
    does not turn into a skip. *)
Definition failures_reported (env : Env) (h : list Event) : Z :=
  fold_right (λ ev acc,
                match ev with
                | EvPerformCopy _ _ (Raised e) =>
                    if is_skip env e then acc else (1 + acc)%Z
                | _ => acc
                end) 0%Z h.

(** The state in which [RunCommand] starts the pool: the counters are at
    zero and the creation of the name expansion iterator is recorded. *)
Definition pool_start (url_strs : list string) (recursion all_versions : bool)
    (st : State) : State :=
  set_copy_failure_count 0%Z
    (record_event (EvNameExpansionIterator url_strs recursion all_versions)
       (set_total_bytes_transferred 0%Z
          (set_total_elapsed_time 0%float st))).

(** * Properties *)

(** ** The report of the throughput and the exit policy *)

Lemma floor_elapsed_time_nonzero (bytes elapsed : float) :
  PrimFloat.eqb (floor_elapsed_time bytes elapsed) 0%float = false.
Proof.
  unfold floor_elapsed_time, py_float_div.
  destruct (PrimFloat.eqb elapsed 0%float) eqn:Hz; [reflexivity | exact Hz].
Qed.

Lemma py_float_div_floor (bytes elapsed : float) :
  py_float_div bytes (floor_elapsed_time bytes elapsed)
  = Returned (PrimFloat.div bytes (floor_elapsed_time bytes elapsed)).
Proof.
  unfold py_float_div at 1.
  now rewrite floor_elapsed_time_nonzero.
Qed.

Lemma py_float_raises (n : Z) (e : Exn) :
  py_float n = Raised e → e = OverflowError.
Proof.
  unfold py_float. destruct (is_infinity _); congruence.
Qed.

(** What [finish_run] comes to when the byte count converts to a float. *)
Lemma finish_run_unfold (renv : RunEnv) (the_debug : Z) (start_time : float)
    (st : State) (fb : float) :
  py_float (total_bytes_transferred st) = Returned fb →
  ∃ st', finish_run renv the_debug start_time st
         = (exit_policy (copy_failure_count st), st')
       ∧ total_bytes_transferred st' = total_bytes_transferred st
       ∧ total_elapsed_time st'
         = floor_elapsed_time fb
             (PrimFloat.sub
                (time_time renv
                   (history st ++
                    [EvLog LogDebug
                       ("total_bytes_transferred: " +:+
                        pretty (total_bytes_transferred st))]))
                start_time).
Proof.
  intros Hfb.
  unfold finish_run, bind, get, logger, modify, lift, when, ret. cbn.
  rewrite Hfb. rewrite py_float_div_floor.
  destruct ((the_debug =? 3)%Z && negb (total_bytes_transferred st =? 0)%Z);
    cbn; eexists; (split; [reflexivity | split; reflexivity]).
Qed.

(** C7. Once the pool has drained, an elapsed time of zero is replaced by
    0.01 before the throughput is computed, so the division of the total
    bytes by the total elapsed time divides by a non-zero float for every
    run: [RunCommand]'s last part never raises [ZeroDivisionError]. *)
Theorem C7_throughput_division_is_safe (renv : RunEnv) (the_debug : Z)
    (start_time : float) (st : State) (bytes elapsed : float) :
  floor_elapsed_time bytes elapsed
  = (if PrimFloat.eqb elapsed 0%float then 0.01%float else elapsed)
  ∧ PrimFloat.eqb 0.01%float 0%float = false
  ∧ py_float_div bytes (floor_elapsed_time bytes elapsed)
    = Returned (PrimFloat.div bytes (floor_elapsed_time bytes elapsed))
  ∧ raises_ZeroDivisionError
      (fst (finish_run renv the_debug start_time st)) = false
  ∧ (py_float (total_bytes_transferred st) = Raised OverflowError
     ∨ PrimFloat.eqb
         (total_elapsed_time (snd (finish_run renv the_debug start_time st)))
         0%float = false).
Proof.
  split; [| split; [reflexivity | split; [apply py_float_div_floor |]]].
  - unfold floor_elapsed_time, py_float_div.
    now destruct (PrimFloat.eqb elapsed 0%float).
  - destruct (py_float (total_bytes_transferred st)) as [fb | e] eqn:Hfb.
    + destruct (finish_run_unfold renv the_debug start_time st fb Hfb)
        as (st' & Hrun & _ & Ht).
      rewrite Hrun. cbn [fst snd]. split.
      * unfold exit_policy.
        now destruct (negb (copy_failure_count st =? 0)%Z).
      * right. rewrite Ht. apply floor_elapsed_time_nonzero.
    + pose proof (py_float_raises _ _ Hfb) as ->.
      split; [| now left].
      unfold finish_run, bind, get, logger, modify, lift. cbn.
      now rewrite Hfb.
Qed.

Lemma exit_policy_zero (count : Z) :
  exit_policy count = Returned 0%Z ↔ count = 0%Z.
Proof.
  unfold exit_policy.
  destruct (count =? 0)%Z eqn:Hc; cbn.
  - apply Z.eqb_eq in Hc. split; [intros _; exact Hc | reflexivity].
  - apply Z.eqb_neq in Hc. split; [discriminate | contradiction].
Qed.

Lemma exit_policy_positive (count : Z) :
  (0 < count)%Z →
  exit_policy count = Raised (CommandException (failure_message count)).
Proof.
  intros Hc. unfold exit_policy.
  destruct (count =? 0)%Z eqn:Heq; cbn; [| reflexivity].
  apply Z.eqb_eq in Heq. lia.
Qed.

(** C4. After the pool has drained the run returns status 0 exactly when
    the failure count is zero; with a positive count K it raises one
    [CommandException] whose text begins with the decimal numeral of K. *)
Theorem C4_exit_status (renv : RunEnv) (the_debug : Z) (start_time : float)
    (st : State) (fb : float) :
  py_float (total_bytes_transferred st) = Returned fb →
  (fst (finish_run renv the_debug start_time st) = Returned 0%Z
   ↔ copy_failure_count st = 0%Z)
  ∧ ((0 < copy_failure_count st)%Z →
     fst (finish_run renv the_debug start_time st)
     = Raised (CommandException (failure_message (copy_failure_count st)))
     ∧ ∃ rest, failure_message (copy_failure_count st)
               = pretty (copy_failure_count st) +:+ " file" +:+ rest).
Proof.
  intros Hfb.
  destruct (finish_run_unfold renv the_debug start_time st fb Hfb)
    as (st' & Hrun & _).
  rewrite Hrun. cbn [fst]. split.
  - apply exit_policy_zero.
  - intros Hpos. split; [now apply exit_policy_positive |].
    unfold failure_message. eexists. reflexivity.
Qed.

Lemma C4_exit_status_witness :
  py_float 10 = Returned 10%float
  ∧ (0 < 3)%Z
  ∧ fst (finish_run (Scenario.run_world (Returned (mkBucket None))) 0%Z
           100%float (mkState ∅ 3%Z 0%float 10%Z false []))
    = Raised (CommandException "3 files/objects could not be transferred.").
Proof.
  split; [vm_compute; reflexivity |].
  split; [lia |].
  refine (proj1 (proj2 (C4_exit_status
                          (Scenario.run_world (Returned (mkBucket None)))
                          0%Z 100%float
                          (mkState ∅ 3%Z 0%float 10%Z false [])
                          10%float _) _)).
  - vm_compute; reflexivity.
  - cbn; lia.
Defined.

(** ** The stages of [CopyFunc] *)

Ltac exec :=
  unfold bind, ret, raise, when, check, call, logger, modify, get, lift,
    try_except in *; cbn in *.

Section Stages.

Context (env : Env) (opts_tuple : OptsTuple) (self : Self).

Implicit Types (st : State) (e : Exn) (ner : NameExpansionResult).
Implicit Types (src_url exp_src_url dst_url : StorageUrl).

Lemma check_source_state ner st :
  snd (check_source env opts_tuple self ner st) = st.
Proof.
  unfold check_source. exec.
  destruct (IsCloudUrl _ && IsProvider _); [reflexivity |].
  destruct (IsMultiSrcRequest ner); [| reflexivity].
  now destruct (InsistDstUrlNamesContainer _ _ _ _).
Qed.

Lemma reject_conflicts_state exp_src_url dst_url st :
  snd (reject_conflicts env opts_tuple self exp_src_url dst_url st) = st.
Proof.
  unfold reject_conflicts. exec.
  destruct (SrcDstSame _ _ _); [reflexivity |].
  now destruct (IsCloudUrl _ && HasGeneration _).
Qed.

Lemma reject_conflicts_returned exp_src_url dst_url st :
  fst (reject_conflicts env opts_tuple self exp_src_url dst_url st)
  = Returned tt
  ↔ SrcDstSame env exp_src_url dst_url = false
    ∧ IsCloudUrl dst_url && HasGeneration dst_url = false.
Proof.
  unfold reject_conflicts. exec.
  destruct (SrcDstSame _ _ _); [cbn; split; [discriminate | intros [? _]; discriminate] |].
  destruct (IsCloudUrl _ && HasGeneration _); cbn.
  - split; [discriminate | intros [_ ?]; discriminate].
  - split; [now intros _ | reflexivity].
Qed.

(** [prepare_destination] names the destination with [resolve_dst_url],
    transfers nothing, removes nothing and leaves the manifest and the
    counters alone. *)
Lemma prepare_destination_spec ner st :
  ∃ delta : list Event,
    let r := prepare_destination env opts_tuple self ner st in
    history (snd r) = (history st ++ delta)%list
    ∧ filter is_transfer delta = []
    ∧ filter is_removal delta = []
    ∧ manifest (snd r) = manifest st
    ∧ copy_failure_count (snd r) = copy_failure_count st
    ∧ total_elapsed_time (snd r) = total_elapsed_time st
    ∧ total_bytes_transferred (snd r) = total_bytes_transferred st
    ∧ (∀ dst_url, fst r = Returned dst_url →
         dst_url = resolve_dst_url env self ner).
Proof.
  unfold prepare_destination. exec.
  destruct (perform_mv opts_tuple && NamesContainer ner); cbn.
  - destruct (ContainsWildcard env (GetSrcUrlStr ner)); cbn.
    { exists []. rewrite app_nil_r. repeat split; try reflexivity.
      intros ?; discriminate. }
    destruct (IsFileUrl _ && negb (os_path_exists _ _ _) && _); cbn.
    + destruct (os_makedirs _ _ _); cbn.
      { eexists [_]. repeat split; try reflexivity. intros ?; discriminate. }
      destruct (CheckForDirFileConflict _ _ _ _); cbn;
        rewrite <- app_assoc; eexists [_; _]; repeat split;
        try reflexivity; intros ?; congruence.
    + destruct (CheckForDirFileConflict _ _ _ _); cbn;
        eexists [_]; repeat split; try reflexivity; intros ?; congruence.
  - destruct (IsFileUrl _ && negb (os_path_exists _ _ _) && _); cbn.
    + destruct (os_makedirs _ _ _); cbn.
      { eexists [_]. repeat split; try reflexivity. intros ?; discriminate. }
      destruct (CheckForDirFileConflict _ _ _ _); cbn;
        rewrite <- app_assoc; eexists [_; _]; repeat split;
        try reflexivity; intros ?; congruence.
    + destruct (CheckForDirFileConflict _ _ _ _); cbn;
        eexists [_]; repeat split; try reflexivity; intros ?; congruence.
Qed.

End Stages.

Ltac fields :=
  cbn [history manifest copy_failure_count total_elapsed_time
       total_bytes_transferred recursion_requested set_manifest
       record_event set_copy_failure_count set_total_elapsed_time
       set_total_bytes_transferred set_recursion_requested add_stats];
  rewrite <- ?app_assoc; cbn [app].

Section Transfer.

Context (env : Env) (opts_tuple : OptsTuple) (self : Self).

Implicit Types (st : State) (e : Exn) (ner : NameExpansionResult).
Implicit Types (src_url exp_src_url dst_url : StorageUrl).

(** From the call of the backend on, [CopyFunc] is [copy_transfer] followed
    by [copy_finish]. *)
Lemma CopyFunc_reaches ner st dst_url st1 :
  reaches_transfer env opts_tuple self ner st dst_url st1 →
  CopyFunc env opts_tuple self ner st
  = bind (copy_transfer env opts_tuple self
            (StorageUrlFromString env (GetSrcUrlStr ner))
            (StorageUrlFromString env (GetExpandedUrlStr ner)) dst_url)
         (copy_finish env opts_tuple
            (StorageUrlFromString env (GetExpandedUrlStr ner)) dst_url) st1.
Proof.
  intros (Hsrc & Hman & Hdst & Hconf).
  unfold CopyFunc, copy_item, bind at 1 2, get.
  rewrite Hsrc, Hman. unfold bind at 1. rewrite Hdst.
  unfold bind at 1. rewrite Hconf. reflexivity.
Qed.

(** A transfer that the backend completes. *)
Lemma copy_transfer_success src_url exp_src_url dst_url st r :
  PerformCopy env (history st) exp_src_url dst_url = Returned r →
  ∃ st',
    copy_transfer env opts_tuple self src_url exp_src_url dst_url st
    = (Returned (cr_elapsed_time r, cr_bytes_transferred r,
                 Some (cr_result_url r)), st')
    ∧ history st'
      = (history st ++ [EvPerformCopy exp_src_url dst_url (Returned r)])%list
    ∧ copy_failure_count st' = copy_failure_count st
    ∧ total_elapsed_time st' = total_elapsed_time st
    ∧ total_bytes_transferred st' = total_bytes_transferred st
    ∧ (use_manifest opts_tuple = true →
       me_result <$> manifest st' !! GetUrlString exp_src_url
       = Some (Some TagOK)).
Proof.
  intros Hcopy.
  unfold copy_transfer, copy_try. exec.
  destruct (use_manifest opts_tuple); cbn; rewrite Hcopy; cbn;
    eexists; repeat split; try discriminate.
  intros _. cbn [manifest set_manifest]. unfold Manifest.SetResult.
  now rewrite lookup_insert_eq.
Qed.

(** A transfer that ends in a skip: nothing is counted as a failure, and
    the local variable [result_url] stays unassigned. *)
Lemma copy_transfer_skip src_url exp_src_url dst_url st e :
  PerformCopy env (history st) exp_src_url dst_url = Raised e →
  is_skip env e = true →
  ∃ message st',
    copy_transfer env opts_tuple self src_url exp_src_url dst_url st
    = (Returned (0%float, 0%Z, None), st')
    ∧ history st'
      = (history st ++ [EvPerformCopy exp_src_url dst_url (Raised e);
                        EvLog LogInfo message])%list
    ∧ copy_failure_count st' = copy_failure_count st
    ∧ total_elapsed_time st' = total_elapsed_time st
    ∧ total_bytes_transferred st' = total_bytes_transferred st
    ∧ (use_manifest opts_tuple = true →
       manifest st' !! GetUrlString exp_src_url
       = Some (mkManifestEntry (GetUrlString dst_url) 0%Z None
                 (Some TagSkip) (Some message))).
Proof.
  intros Hcopy Hskip. unfold is_skip in Hskip.
  unfold copy_transfer, copy_try, copy_except, record_skip. exec.
  destruct (use_manifest opts_tuple); cbn; rewrite Hcopy; cbn;
    destruct (is_ItemExistsError e); cbn in *;
    try rewrite Hskip; cbn;
    do 2 eexists; (split; [reflexivity |]); repeat split; fields;
    try reflexivity; try discriminate;
    intros _; unfold Manifest.SetResult, Manifest.Initialize;
    rewrite lookup_insert_eq; cbn; now rewrite lookup_insert_eq.
Qed.

(** A transfer that fails, under [-c]: the failure is counted once, the
    manifest gets an error entry with the message, nothing is raised. *)
Lemma copy_transfer_tolerated src_url exp_src_url dst_url st e :
  PerformCopy env (history st) exp_src_url dst_url = Raised e →
  is_skip env e = false →
  continue_on_error self = true →
  let message :=
    "Error copying " +:+ GetUrlString src_url +:+ ": " +:+ exn_str e in
  ∃ st',
    copy_transfer env opts_tuple self src_url exp_src_url dst_url st
    = (Returned (0%float, 0%Z, None), st')
    ∧ history st'
      = (history st ++ [EvPerformCopy exp_src_url dst_url (Raised e);
                        EvLog LogError message])%list
    ∧ copy_failure_count st' = (copy_failure_count st + 1)%Z
    ∧ total_elapsed_time st' = total_elapsed_time st
    ∧ total_bytes_transferred st' = total_bytes_transferred st
    ∧ (use_manifest opts_tuple = true →
       manifest st' !! GetUrlString exp_src_url
       = Some (mkManifestEntry (GetUrlString dst_url) 0%Z None
                 (Some TagError) (Some message))).
Proof.
  intros Hcopy Hskip Hcont message. unfold is_skip in Hskip.
  apply orb_false_iff in Hskip as [Hitem Hclobber].
  unfold copy_transfer, copy_try, copy_except, record_skip. exec.
  destruct (use_manifest opts_tuple); cbn; rewrite Hcopy; cbn;
    rewrite Hitem, Hclobber, Hcont; cbn;
    eexists; (split; [reflexivity |]); repeat split; fields;
    try reflexivity; try discriminate.
  intros _.
  unfold Manifest.SetResult, Manifest.Initialize.
  rewrite lookup_insert_eq. cbn. now rewrite lookup_insert_eq.
Qed.

(** A transfer that fails, without [-c]: the manifest gets an error entry
    and the exception of the backend is raised again. *)
Lemma copy_transfer_fatal src_url exp_src_url dst_url st e :
  PerformCopy env (history st) exp_src_url dst_url = Raised e →
  is_skip env e = false →
  continue_on_error self = false →
  ∃ st',
    copy_transfer env opts_tuple self src_url exp_src_url dst_url st
    = (Raised e, st')
    ∧ history st'
      = (history st ++ [EvPerformCopy exp_src_url dst_url (Raised e)])%list
    ∧ copy_failure_count st' = copy_failure_count st
    ∧ total_elapsed_time st' = total_elapsed_time st
    ∧ total_bytes_transferred st' = total_bytes_transferred st
    ∧ (use_manifest opts_tuple = true →
       manifest st' !! GetUrlString exp_src_url
       = Some (mkManifestEntry (GetUrlString dst_url) 0%Z None
                 (Some TagError) (Some (exn_str e)))).
Proof.
  intros Hcopy Hskip Hcont. unfold is_skip in Hskip.
  apply orb_false_iff in Hskip as [Hitem Hclobber].
  unfold copy_transfer, copy_try, copy_except, record_skip. exec.
  destruct (use_manifest opts_tuple); cbn; rewrite Hcopy; cbn;
    rewrite Hitem, Hclobber, Hcont; cbn;
    eexists; (split; [reflexivity |]); repeat split; fields;
    try reflexivity; try discriminate.
  intros _.
  unfold Manifest.SetResult, Manifest.Initialize.
  rewrite lookup_insert_eq. cbn. now rewrite lookup_insert_eq.
Qed.

End Transfer.

Section Finish.

Context (env : Env) (opts_tuple : OptsTuple) (self : Self).

Implicit Types (st : State) (e : Exn) (ner : NameExpansionResult).
Implicit Types (src_url exp_src_url dst_url : StorageUrl).

(** Whatever the backend answers, [copy_transfer] calls it exactly once,
    removes nothing, leaves the byte and time counters alone, and hands over
    the values of the backend, or zeros when it raised. *)
Lemma copy_transfer_spec src_url exp_src_url dst_url st :
  let answer := PerformCopy env (history st) exp_src_url dst_url in
  let r := copy_transfer env opts_tuple self src_url exp_src_url dst_url st in
  ∃ logs : list Event,
    history (snd r)
    = (history st ++ EvPerformCopy exp_src_url dst_url answer :: logs)%list
    ∧ filter is_transfer logs = []
    ∧ filter is_removal logs = []
    ∧ total_elapsed_time (snd r) = total_elapsed_time st
    ∧ total_bytes_transferred (snd r) = total_bytes_transferred st
    ∧ (∀ locals, fst r = Returned locals →
         fst locals
         = match answer with
           | Returned cr => (cr_elapsed_time cr, cr_bytes_transferred cr)
           | Raised _ => (0%float, 0%Z)
           end).
Proof.
  intros answer r. subst r.
  destruct answer as [cr | e] eqn:Hanswer; subst answer.
  - destruct (copy_transfer_success env opts_tuple self src_url _ _ _ _
                Hanswer) as (st' & -> & Hh & _ & Ht & Hb & _).
    exists []. cbn [fst snd]. repeat split; try assumption.
    intros locals [= <-]. reflexivity.
  - destruct (is_skip env e) eqn:Hskip.
    + destruct (copy_transfer_skip env opts_tuple self src_url _ _ _ _
                  Hanswer Hskip) as (msg & st' & -> & Hh & _ & Ht & Hb & _).
      exists [EvLog LogInfo msg]. cbn [fst snd].
      repeat split; try assumption. intros locals [= <-]. reflexivity.
    + destruct (continue_on_error self) eqn:Hcont.
      * destruct (copy_transfer_tolerated env opts_tuple self src_url _ _ _ _
                    Hanswer Hskip Hcont) as (st' & -> & Hh & _ & Ht & Hb & _).
        eexists [_]. cbn [fst snd].
        repeat split; try eassumption; try reflexivity.
        intros locals [= <-]. reflexivity.
      * destruct (copy_transfer_fatal env opts_tuple self src_url _ _ _ _
                    Hanswer Hskip Hcont) as (st' & -> & Hh & _ & Ht & Hb & _).
        exists []. cbn [fst snd]. repeat split; try assumption.
        intros locals [=].
Qed.

(** With [-v] and [result_url] unassigned, [copy_finish] stops at the
    first step with the error of an unbound local variable. *)
Lemma copy_finish_unassigned exp_src_url dst_url st
    (elapsed_time : float) (bytes_transferred : Z) :
  print_ver opts_tuple = true →
  copy_finish env opts_tuple exp_src_url dst_url
    (elapsed_time, bytes_transferred, None) st
  = (Raised (UnboundLocalError "result_url"), st).
Proof.
  intros Hver. unfold copy_finish. exec. now rewrite Hver.
Qed.

(** [copy_finish] calls no transfer; when it returns it has added the two
    values to the counters, and when it raises the counters are as before. *)
Lemma copy_finish_spec exp_src_url dst_url st
    (locals : float * Z * option StorageUrl) :
  let r := copy_finish env opts_tuple exp_src_url dst_url locals st in
  ∃ delta : list Event,
    history (snd r) = (history st ++ delta)%list
    ∧ filter is_transfer delta = []
    ∧ manifest (snd r) = manifest st
    ∧ copy_failure_count (snd r) = copy_failure_count st
    ∧ (fst r = Returned tt →
       total_bytes_transferred (snd r)
       = (total_bytes_transferred st + snd (fst locals))%Z
       ∧ total_elapsed_time (snd r)
         = PrimFloat.add (total_elapsed_time st) (fst (fst locals)))
    ∧ (is_Raised (fst r) = true →
       total_bytes_transferred (snd r) = total_bytes_transferred st
       ∧ total_elapsed_time (snd r) = total_elapsed_time st).
Proof.
  destruct locals as [[elapsed_time bytes_transferred] result_url].
  unfold copy_finish, remove_source, add_stats. exec.
  destruct (print_ver opts_tuple); cbn;
    [destruct result_url as [u |]; cbn |];
    try (exists []; rewrite app_nil_r; repeat split; discriminate);
    (destruct (truthy (canned_acl opts_tuple)); cbn;
     [destruct (SetAclFunc env _ _); cbn |];
     try (eexists; fields; repeat split; discriminate);
     (destruct (perform_mv opts_tuple); cbn;
      [destruct (IsCloudUrl exp_src_url); cbn;
       [destruct (DeleteObject env _ _ _ _ _) | destruct (os_unlink env _ _)];
       cbn |];
      try (eexists; fields; repeat split; fields; try reflexivity;
           discriminate))).
  all: eexists []; rewrite app_nil_r; repeat split; discriminate.
Qed.

End Finish.

(** ** Accounting *)

Lemma bytes_reported_app (h1 h2 : list Event) :
  bytes_reported (h1 ++ h2) = (bytes_reported h1 + bytes_reported h2)%Z.
Proof.
  unfold bytes_reported.
  induction h1 as [| ev h1 IH]; [reflexivity |].
  cbn. destruct ev as [| | | | ? ? [cr | e] | | |]; rewrite ?IH; lia.
Qed.

Lemma bytes_reported_no_transfer (h : list Event) :
  filter is_transfer h = [] → bytes_reported h = 0%Z.
Proof.
  unfold bytes_reported.
  induction h as [| ev h IH]; [reflexivity |].
  destruct ev; cbn; try exact IH. discriminate.
Qed.

Lemma elapsed_reported_app (t : float) (h1 h2 : list Event) :
  elapsed_reported t (h1 ++ h2)
  = elapsed_reported (elapsed_reported t h1) h2.
Proof. unfold elapsed_reported. apply fold_left_app. Qed.

Lemma elapsed_reported_no_transfer (t : float) (h : list Event) :
  filter is_transfer h = [] → elapsed_reported t h = t.
Proof.
  unfold elapsed_reported.
  revert t. induction h as [| ev h IH]; intros t; [reflexivity |].
  destruct ev; cbn; try apply IH. discriminate.
Qed.

Lemma bytes_reported_transfer (exp_src_url dst_url : StorageUrl)
    (answer : Outcome CopyResult) (h : list Event) :
  bytes_reported (EvPerformCopy exp_src_url dst_url answer :: h)
  = (match answer with
     | Returned cr => cr_bytes_transferred cr
     | Raised _ => 0
     end + bytes_reported h)%Z.
Proof. destruct answer; reflexivity. Qed.

Lemma elapsed_reported_transfer (t : float) (exp_src_url dst_url : StorageUrl)
    (answer : Outcome CopyResult) (h : list Event) :
  elapsed_reported t (EvPerformCopy exp_src_url dst_url answer :: h)
  = elapsed_reported
      (PrimFloat.add t
         match answer with
         | Returned cr => cr_elapsed_time cr
         | Raised _ => 0%float
         end) h.
Proof. destruct answer; reflexivity. Qed.

Lemma new_events_app (st st' : State) (delta : list Event) :
  history st' = (history st ++ delta)%list → new_events st st' = delta.
Proof. intros H. unfold new_events. rewrite H. apply drop_app_length. Qed.

Section Accounting.

Context (env : Env) (opts_tuple : OptsTuple) (self : Self).

Implicit Types (st : State) (e : Exn) (ner : NameExpansionResult).

(** An item that [CopyFunc] completes contributes the values that the
    backend reported for it, once; an item on which [CopyFunc] raises
    contributes nothing. *)
Lemma CopyFunc_accounting ner st :
  let r := CopyFunc env opts_tuple self ner st in
  ∃ delta : list Event,
    history (snd r) = (history st ++ delta)%list
    ∧ (fst r = Returned tt →
       total_bytes_transferred (snd r)
       = (total_bytes_transferred st + bytes_reported delta)%Z
       ∧ total_elapsed_time (snd r)
         = elapsed_reported (total_elapsed_time st) delta)
    ∧ (is_Raised (fst r) = true →
       total_bytes_transferred (snd r) = total_bytes_transferred st
       ∧ total_elapsed_time (snd r) = total_elapsed_time st).
Proof.
  cbv zeta.
  destruct (CopyFunc env opts_tuple self ner st) as [o st'] eqn:Hrun.
  cbn [fst snd]. revert Hrun.
  unfold CopyFunc, copy_item, bind at 1 2, get.
  pose proof (check_source_state env opts_tuple self ner st) as Hsrc.
  destruct (check_source env opts_tuple self ner st) as [[[] | e] st0];
    cbn in Hsrc; subst st0.
  2: { intros [= <- <-]. exists []. rewrite app_nil_r. cbn.
       repeat split; discriminate. }
  destruct (use_manifest opts_tuple && Manifest.WasSuccessful _ _).
  { intros [= <- <-]. exists []. rewrite app_nil_r. cbn.
    repeat split; lia. }
  unfold bind at 1.
  destruct (prepare_destination_spec env opts_tuple self ner st)
    as (d1 & Hh1 & Hno1 & _ & _ & _ & Ht1 & Hb1 & _).
  destruct (prepare_destination env opts_tuple self ner st)
    as [[dst_url | e] st1]; cbn [fst snd] in *.
  2: { intros [= <- <-]. exists d1. cbn.
       repeat split; try assumption; discriminate. }
  unfold bind at 1.
  pose proof (reject_conflicts_state env opts_tuple self
                (StorageUrlFromString env (GetExpandedUrlStr ner))
                dst_url st1) as Hconf.
  destruct (reject_conflicts _ _ _ _ _ _) as [[[] | e] st2];
    cbn in Hconf; subst st2.
  2: { intros [= <- <-]. exists d1. cbn.
       repeat split; try assumption; discriminate. }
  unfold bind at 1.
  destruct (copy_transfer_spec env opts_tuple self
              (StorageUrlFromString env (GetSrcUrlStr ner))
              (StorageUrlFromString env (GetExpandedUrlStr ner))
              dst_url st1)
    as (logs & Hh2 & Hno2 & _ & Ht2 & Hb2 & Hloc).
  destruct (copy_transfer _ _ _ _ _ _ _) as [[locals | e] st2];
    cbn [fst snd] in *.
  2: { intros [= <- <-]. eexists. rewrite Hh2, Hh1, <- app_assoc.
       split; [reflexivity |].
       cbn. split; [discriminate | intros _; split; congruence]. }
  specialize (Hloc locals eq_refl).
  destruct (copy_finish_spec env opts_tuple
              (StorageUrlFromString env (GetExpandedUrlStr ner))
              dst_url st2 locals)
    as (d3 & Hh3 & Hno3 & _ & _ & Hret & Hraise).
  destruct (copy_finish _ _ _ _ _ _) as [[[] | e] st3]; cbn [fst snd] in *;
    intros [= <- <-].
  - eexists. rewrite Hh3, Hh2, Hh1, <- !app_assoc. split; [reflexivity |].
    cbn [app]. split; [intros _ | discriminate].
    destruct (Hret eq_refl) as [Hb3 Ht3].
    rewrite Hb3, Ht3, Hb2, Ht2, Hb1, Ht1.
    rewrite bytes_reported_app, (bytes_reported_no_transfer d1 Hno1).
    rewrite elapsed_reported_app, (elapsed_reported_no_transfer _ d1 Hno1).
    rewrite bytes_reported_transfer, elapsed_reported_transfer.
    rewrite bytes_reported_no_transfer, elapsed_reported_no_transfer
      by (rewrite filter_app, Hno2, Hno3; reflexivity).
    destruct locals as [[el by_] ru]. cbn [fst snd] in *.
    rewrite <- Hh1.
    destruct (PerformCopy env (history st1) _ dst_url) as [cr | e'];
      injection Hloc as -> ->; split; (lia || reflexivity).
  - eexists. rewrite Hh3, Hh2, Hh1, <- !app_assoc. split; [reflexivity |].
    cbn. split; [discriminate | intros _].
    destruct (Hraise eq_refl) as [Hb3 Ht3]. split; congruence.
Qed.

End Accounting.

(** ** The pool *)

Section Pool.

Context (func : NameExpansionResult → M unit) (handler : Exn → M unit).

Implicit Types (st : State) (items : list NameExpansionResult).

Lemma Apply_app items1 items2 st st1 :
  Apply func items1 handler true st = (Returned tt, st1) →
  Apply func (items1 ++ items2) handler true st
  = Apply func items2 handler true st1.
Proof.
  revert st. induction items1 as [| item items1 IH]; intros st; cbn.
  - unfold ret. now intros [= ->].
  - destruct (func item st) as [[[] | e] st']; [apply IH | discriminate].
Qed.

(** A pool that raises has completed every item before the one that raised,
    and has started none after it. *)
Lemma Apply_raised items st st' e :
  Apply func items handler true st = (Raised e, st') →
  ∃ done item rest st1,
    items = (done ++ item :: rest)%list
    ∧ Apply func done handler true st = (Returned tt, st1)
    ∧ func item st1 = (Raised e, st').
Proof.
  revert st. induction items as [| item items IH]; intros st; cbn.
  - discriminate.
  - destruct (func item st) as [[[] | e0] st0] eqn:Hitem.
    + intros Hrest. destruct (IH _ Hrest) as (done & it & rest & st1 & -> & Hd & Hi).
      exists (item :: done), it, rest, st1. cbn. rewrite Hitem. auto.
    + intros [= -> ->]. exists [], item, items, st. auto.
Qed.

End Pool.

Lemma drain_stats_bytes (order : list (float * Z)) (st : State) :
  total_bytes_transferred (drain_stats order st)
  = (total_bytes_transferred st + sum_bytes order)%Z.
Proof.
  unfold drain_stats, sum_bytes.
  revert st. induction order as [| c order IH]; intros st; cbn.
  - lia.
  - rewrite IH. cbn. lia.
Qed.

Lemma sum_bytes_permutation (order order' : list (float * Z)) :
  order ≡ₚ order' → sum_bytes order = sum_bytes order'.
Proof.
  unfold sum_bytes.
  induction 1 as [| c l l' _ IH | c c' l | l l' l'' _ IH1 _ IH2]; cbn.
  - reflexivity.
  - now rewrite IH.
  - lia.
  - now rewrite IH1.
Qed.

Section PoolAccounting.

Context (env : Env) (opts_tuple : OptsTuple) (self : Self).
Context (handler : Exn → M unit).

(** A pool that drains without a failure has counted, for every item, the
    bytes and the elapsed time that the backend reported. *)
Lemma Apply_accounting (items : list NameExpansionResult) (st st' : State) :
  Apply (_CopyFuncWrapper env opts_tuple self) items handler true st
  = (Returned tt, st') →
  ∃ delta : list Event,
    history st' = (history st ++ delta)%list
    ∧ total_bytes_transferred st'
      = (total_bytes_transferred st + bytes_reported delta)%Z
    ∧ total_elapsed_time st'
      = elapsed_reported (total_elapsed_time st) delta.
Proof.
  revert st. induction items as [| item items IH]; intros st; cbn.
  - unfold ret. intros [= <-]. exists []. rewrite app_nil_r.
    cbn. split; [reflexivity | split; [lia | reflexivity]].
  - unfold _CopyFuncWrapper at 1.
    destruct (CopyFunc_accounting env opts_tuple self item st)
      as (d1 & Hh1 & Hret & _).
    destruct (CopyFunc env opts_tuple self item st) as [[[] | e] st1];
      [| discriminate].
    cbn [fst snd] in *. destruct (Hret eq_refl) as [Hb1 Ht1].
    intros Hrest. destruct (IH _ Hrest) as (d2 & Hh2 & Hb2 & Ht2).
    exists (d1 ++ d2)%list. rewrite Hh2, Hh1, <- app_assoc.
    split; [reflexivity |].
    rewrite Hb2, Ht2, Hb1, Ht1, bytes_reported_app, elapsed_reported_app.
    split; [lia | reflexivity].
Qed.

End PoolAccounting.

(** ** The counters of a run *)

(** C5 (as amended). When the pool stops, the byte counter has grown by the
    sum of the bytes that the backend reported for the items that
    [CopyFunc] completed, and the elapsed-time counter by their elapsed
    times; the item on which the pool aborts, if any, counts for nothing.
    The sum of the bytes does not depend on the order in which the workers
    take [stats_lock].  The rest of [RunCommand] keeps the byte counter and
    replaces the elapsed-time counter by the wall-clock duration of the
    pool (or by 0.01 when that is zero). *)
Theorem C5_counters_of_a_run (env : Env) (renv : RunEnv)
    (opts_tuple : OptsTuple) (self : Self) (the_debug : Z)
    (handler : Exn → M unit) (items : list NameExpansionResult)
    (st : State) :
  let pool := Apply (_CopyFuncWrapper env opts_tuple self) in
  (∃ done rest st1,
     items = (done ++ rest)%list
     ∧ pool done handler true st = (Returned tt, st1)
     ∧ total_bytes_transferred (snd (pool items handler true st))
       = (total_bytes_transferred st
          + bytes_reported (new_events st st1))%Z
     ∧ total_elapsed_time (snd (pool items handler true st))
       = elapsed_reported (total_elapsed_time st) (new_events st st1)
     ∧ (fst (pool items handler true st) = Returned tt →
        rest = [] ∧ st1 = snd (pool items handler true st))
     ∧ (∀ e, fst (pool items handler true st) = Raised e →
        ∃ item rest',
          rest = item :: rest'
          ∧ CopyFunc env opts_tuple self item st1
            = (Raised e, snd (pool items handler true st))))
  ∧ (∀ (order order' : list (float * Z)) (s : State),
       order ≡ₚ order' →
       total_bytes_transferred (drain_stats order s)
       = (total_bytes_transferred s + sum_bytes order)%Z
       ∧ total_bytes_transferred (drain_stats order' s)
         = total_bytes_transferred (drain_stats order s))
  ∧ (∀ (start_time fb : float) (st' : State),
       py_float (total_bytes_transferred st') = Returned fb →
       let final := snd (finish_run renv the_debug start_time st') in
       total_bytes_transferred final = total_bytes_transferred st'
       ∧ total_elapsed_time final
         = floor_elapsed_time fb
             (PrimFloat.sub
                (time_time renv
                   (history st' ++
                    [EvLog LogDebug
                       ("total_bytes_transferred: " +:+
                        pretty (total_bytes_transferred st'))]))
                start_time)).
Proof.
  intros pool. split; [| split].
  - destruct (pool items handler true st) as [[[] | e] st'] eqn:Hpool;
      cbn [fst snd].
    + destruct (Apply_accounting env opts_tuple self handler items st st'
                  Hpool) as (delta & Hh & Hb & Ht).
      exists items, [], st'. rewrite app_nil_r.
      rewrite (new_events_app _ _ _ Hh).
      repeat split; try assumption. intros e [=].
    + destruct (Apply_raised _ handler items st st' e Hpool)
        as (done & item & rest & st1 & -> & Hdone & Hitem).
      destruct (Apply_accounting env opts_tuple self handler done st st1
                  Hdone) as (delta & Hh & Hb & Ht).
      unfold _CopyFuncWrapper in Hitem.
      destruct (CopyFunc_accounting env opts_tuple self item st1)
        as (d & _ & _ & Hraise).
      rewrite Hitem in Hraise. cbn [fst snd] in Hraise.
      destruct (Hraise eq_refl) as [Hb' Ht'].
      exists done, (item :: rest), st1.
      rewrite (new_events_app _ _ _ Hh), Hb', Ht'.
      repeat split; try assumption; try discriminate.
      intros e' [= <-]. now exists item, rest.
  - intros order order' s Hperm.
    rewrite !drain_stats_bytes. split; [reflexivity |].
    now rewrite (sum_bytes_permutation _ _ Hperm).
  - intros start_time fb st' Hfb final. subst final.
    destruct (finish_run_unfold renv the_debug start_time st' fb Hfb)
      as (fin & -> & Hb & Ht).
    now split.
Qed.

Lemma C5_counters_of_a_run_witness :
  [(2%float, 10%Z); (3%float, 20%Z)] ≡ₚ [(3%float, 20%Z); (2%float, 10%Z)]
  ∧ total_bytes_transferred
      (drain_stats [(3%float, 20%Z); (2%float, 10%Z)] Scenario.fresh)
    = total_bytes_transferred
        (drain_stats [(2%float, 10%Z); (3%float, 20%Z)] Scenario.fresh).
Proof.
  split; [apply Permutation_swap |].
  refine (proj2 (proj1 (proj2 (C5_counters_of_a_run
                   Scenario.fine
                   (Scenario.run_world (Returned (mkBucket None)))
                   (Scenario.opts false false false)
                   (Scenario.self_to "gs://b/dst" false) 0%Z
                   (λ _, ret tt) [Scenario.item "gs://b/src"]
                   Scenario.fresh))
                _ _ Scenario.fresh _)).
  apply Permutation_swap.
Defined.

(** A run of one item: the backend reports two seconds for the transfer,
    and the run leaves fifteen, the time between the two readings of the
    clock, in the elapsed-time counter. *)
Lemma C5_elapsed_time_is_the_wall_clock :
  let outcome :=
    RunCommand Scenario.fine (Scenario.run_world (Returned (mkBucket None)))
      (Scenario.opts false false false) "cp" false 0%Z
      ["gs://b/src"; "gs://b/dst"] Scenario.fresh in
  fst outcome = Returned 0%Z
  ∧ elapsed_reported 0%float (history (snd outcome)) = 2%float
  ∧ total_elapsed_time (snd outcome) = 15%float
  ∧ total_elapsed_time (snd outcome)
    ≠ elapsed_reported 0%float (history (snd outcome)).
Proof.
  cbv zeta. split; [vm_compute; reflexivity |].
  split; [vm_compute; reflexivity |].
  split; [vm_compute; reflexivity |].
  intros H. apply (f_equal (λ t, PrimFloat.eqb t 2%float)) in H.
  vm_compute in H. discriminate H.
Qed.

(** ** Rejections before the transfer *)



(** C8. An item whose resolved destination is its own source, or is a cloud
    URL that names a version, is never handed to the transfer backend.  The
    only way for [CopyFunc] to return normally on such an item is the
    short-circuit of the manifest, which comes before the destination is
    resolved; an item that gets as far as the tests of lines 571-580 is
    rejected there with a [CommandException]. *)
Theorem C8_conflicting_destination (env : Env) (opts_tuple : OptsTuple)
    (self : Self) (ner : NameExpansionResult) (st : State) :
  let exp_src_url := StorageUrlFromString env (GetExpandedUrlStr ner) in
  let dst_url := resolve_dst_url env self ner in
  SrcDstSame env exp_src_url dst_url
  || IsCloudUrl dst_url && HasGeneration dst_url = true →
  filter is_transfer
    (new_events st (snd (CopyFunc env opts_tuple self ner st))) = []
  ∧ (fst (CopyFunc env opts_tuple self ner st) = Returned tt →
     use_manifest opts_tuple
     && Manifest.WasSuccessful (manifest st) (GetUrlString exp_src_url)
     = true)
  ∧ (∀ st1,
       check_source env opts_tuple self ner st = (Returned tt, st) →
       use_manifest opts_tuple
       && Manifest.WasSuccessful (manifest st) (GetUrlString exp_src_url)
       = false →
       prepare_destination env opts_tuple self ner st
       = (Returned dst_url, st1) →
       ∃ reason,
         CopyFunc env opts_tuple self ner st
         = (Raised (CommandException reason), st1)).
Proof.
  intros exp_src_url dst_url Hconflict.
  assert (∀ st1, ∃ reason,
            reject_conflicts env opts_tuple self exp_src_url dst_url st1
            = (Raised (CommandException reason), st1)) as Hreject.
  { intros st1. unfold reject_conflicts. exec.
    destruct (SrcDstSame env exp_src_url dst_url); [eexists; reflexivity |].
    cbn in Hconflict. rewrite Hconflict. eexists; reflexivity. }
  split; [| split].
  - unfold CopyFunc, copy_item, bind at 1 2, get.
    pose proof (check_source_state env opts_tuple self ner st) as Hsrc.
    destruct (check_source env opts_tuple self ner st) as [[[] | e] st0];
      cbn in Hsrc; subst st0.
    2: { cbn. unfold new_events. now rewrite drop_all. }
    destruct (use_manifest opts_tuple && Manifest.WasSuccessful _ _).
    { cbn. unfold new_events. now rewrite drop_all. }
    unfold bind at 1.
    destruct (prepare_destination_spec env opts_tuple self ner st)
      as (d1 & Hh1 & Hno1 & _ & _ & _ & _ & _ & Hdst).
    destruct (prepare_destination env opts_tuple self ner st)
      as [[dst | e] st1]; cbn [fst snd] in *.
    2: { now rewrite (new_events_app _ _ _ Hh1). }
    rewrite (Hdst dst eq_refl). fold exp_src_url dst_url.
    unfold bind at 1. destruct (Hreject st1) as [reason ->].
    cbn [snd]. now rewrite (new_events_app _ _ _ Hh1).
  - unfold CopyFunc, copy_item, bind at 1 2, get.
    pose proof (check_source_state env opts_tuple self ner st) as Hsrc.
    destruct (check_source env opts_tuple self ner st) as [[[] | e] st0];
      cbn in Hsrc; subst st0; [| discriminate].
    fold exp_src_url.
    destruct (use_manifest opts_tuple && Manifest.WasSuccessful _ _);
      [reflexivity |].
    unfold bind at 1.
    destruct (prepare_destination_spec env opts_tuple self ner st)
      as (d1 & _ & _ & _ & _ & _ & _ & _ & Hdst).
    destruct (prepare_destination env opts_tuple self ner st)
      as [[dst | e] st1]; cbn [fst snd] in *; [| discriminate].
    rewrite (Hdst dst eq_refl). fold dst_url.
    unfold bind at 1. destruct (Hreject st1) as [reason ->]. discriminate.
  - intros st1 Hsrc Hman Hdst.
    unfold CopyFunc, copy_item, bind at 1 2, get.
    rewrite Hsrc. fold exp_src_url. rewrite Hman.
    unfold bind at 1. rewrite Hdst. fold exp_src_url.
    unfold bind at 1. destruct (Hreject st1) as [reason ->].
    now exists reason.
Qed.

Lemma C8_conflicting_destination_witness :
  SrcDstSame Scenario.fine (Scenario.parse "gs://b/obj")
    (resolve_dst_url Scenario.fine (Scenario.self_to "gs://b/obj" false)
       (Scenario.item "gs://b/obj"))
  || IsCloudUrl (Scenario.parse "gs://b/obj")
     && HasGeneration (Scenario.parse "gs://b/obj") = true
  ∧ filter is_transfer
      (new_events Scenario.fresh
         (snd (CopyFunc Scenario.fine (Scenario.opts false false false)
                 (Scenario.self_to "gs://b/obj" false)
                 (Scenario.item "gs://b/obj") Scenario.fresh))) = [].
Proof.
  split; [reflexivity |].
  exact (proj1 (C8_conflicting_destination Scenario.fine
                  (Scenario.opts false false false)
                  (Scenario.self_to "gs://b/obj" false)
                  (Scenario.item "gs://b/obj") Scenario.fresh eq_refl)).
Defined.

(** ** After a transfer that did not succeed *)

Section Unassigned.

Context (env : Env) (opts_tuple : OptsTuple) (self : Self).

Implicit Types (st : State) (e : Exn) (ner : NameExpansionResult).

(** Under [-v], an item whose transfer raised and was absorbed by the
    handler (a skip, or a failure under [-c]) ends with the error of the
    unbound [result_url]; the counters of bytes and time are not updated. *)
Lemma CopyFunc_unassigned ner st dst_url st1 e :
  print_ver opts_tuple = true →
  reaches_transfer env opts_tuple self ner st dst_url st1 →
  PerformCopy env (history st1)
    (StorageUrlFromString env (GetExpandedUrlStr ner)) dst_url = Raised e →
  is_skip env e || continue_on_error self = true →
  ∃ st',
    CopyFunc env opts_tuple self ner st
    = (Raised (UnboundLocalError "result_url"), st')
    ∧ copy_failure_count st'
      = (copy_failure_count st1 + if is_skip env e then 0 else 1)%Z.
Proof.
  intros Hver Hreach Hcopy Habsorbed.
  rewrite (CopyFunc_reaches _ _ _ _ _ _ _ Hreach). unfold bind.
  destruct (is_skip env e) eqn:Hskip.
  - destruct (copy_transfer_skip env opts_tuple self
                (StorageUrlFromString env (GetSrcUrlStr ner)) _ _ _ _
                Hcopy Hskip) as (msg & st' & -> & _ & Hcount & _).
    rewrite (copy_finish_unassigned _ _ _ _ _ _ _ Hver).
    exists st'. split; [reflexivity | lia].
  - cbn in Habsorbed.
    destruct (copy_transfer_tolerated env opts_tuple self
                (StorageUrlFromString env (GetSrcUrlStr ner)) _ _ _ _
                Hcopy Hskip Habsorbed) as (st' & -> & _ & Hcount & _).
    rewrite (copy_finish_unassigned _ _ _ _ _ _ _ Hver).
    exists st'. split; [reflexivity | lia].
Qed.

(** In a move without [-v] and without [-a], an item whose transfer was
    skipped still has its source removed: the removal is called after the
    transfer that raised. *)
Lemma move_removes_source_of_skipped_item ner st dst_url st1 e :
  perform_mv opts_tuple = true →
  print_ver opts_tuple = false →
  truthy (canned_acl opts_tuple) = false →
  reaches_transfer env opts_tuple self ner st dst_url st1 →
  PerformCopy env (history st1)
    (StorageUrlFromString env (GetExpandedUrlStr ner)) dst_url = Raised e →
  is_skip env e = true →
  let exp_src_url := StorageUrlFromString env (GetExpandedUrlStr ner) in
  ∃ message,
    new_events st1 (snd (CopyFunc env opts_tuple self ner st))
    = [EvPerformCopy exp_src_url dst_url (Raised e);
       EvLog LogInfo message;
       EvLog LogInfo ("Removing " +:+ GetUrlString exp_src_url +:+ "...");
       removal_event exp_src_url].
Proof.
  intros Hmv Hver Hacl Hreach Hcopy Hskip exp_src_url.
  rewrite (CopyFunc_reaches _ _ _ _ _ _ _ Hreach). unfold bind.
  destruct (copy_transfer_skip env opts_tuple self
              (StorageUrlFromString env (GetSrcUrlStr ner)) _ _ _ _
              Hcopy Hskip) as (msg & st' & -> & Hh & _).
  exists msg. fold exp_src_url in Hh |- *.
  unfold copy_finish, remove_source, removal_event. exec.
  rewrite Hver, Hacl, Hmv. cbn.
  destruct (IsCloudUrl exp_src_url); cbn.
  - destruct (DeleteObject env _ _ _ _ _); cbn;
      apply new_events_app; fields; rewrite Hh, <- app_assoc; reflexivity.
  - destruct (os_unlink env _ _); cbn;
      apply new_events_app; fields; rewrite Hh, <- app_assoc; reflexivity.
Qed.

(** In a move without [-a], an item whose transfer succeeded has its source
    removed by exactly one call, placed after the transfer. *)
Lemma move_removes_source_of_copied_item ner st dst_url st1 r :
  perform_mv opts_tuple = true →
  truthy (canned_acl opts_tuple) = false →
  reaches_transfer env opts_tuple self ner st dst_url st1 →
  PerformCopy env (history st1)
    (StorageUrlFromString env (GetExpandedUrlStr ner)) dst_url = Returned r →
  let exp_src_url := StorageUrlFromString env (GetExpandedUrlStr ner) in
  ∃ after : list Event,
    new_events st1 (snd (CopyFunc env opts_tuple self ner st))
    = (EvPerformCopy exp_src_url dst_url (Returned r) :: after)%list
    ∧ filter is_removal after = [removal_event exp_src_url]
    ∧ filter is_removal (new_events st st1) = [].
Proof.
  intros Hmv Hacl Hreach Hcopy exp_src_url.
  rewrite (CopyFunc_reaches _ _ _ _ _ _ _ Hreach). unfold bind.
  destruct (copy_transfer_success env opts_tuple self
              (StorageUrlFromString env (GetSrcUrlStr ner)) _ _ _ _
              Hcopy) as (st' & -> & Hh & _).
  fold exp_src_url in Hh |- *.
  assert (filter is_removal (new_events st st1) = []) as Hbefore.
  { destruct Hreach as (_ & _ & Hdst & _).
    destruct (prepare_destination_spec env opts_tuple self ner st)
      as (d1 & Hh1 & _ & Hno & _).
    rewrite Hdst in Hh1. cbn [snd] in Hh1.
    now rewrite (new_events_app _ _ _ Hh1). }
  unfold copy_finish, remove_source, removal_event. exec.
  rewrite Hacl, Hmv. cbn.
  destruct (print_ver opts_tuple); cbn;
    destruct (IsCloudUrl exp_src_url); cbn;
    try destruct (DeleteObject env _ _ _ _ _);
    try destruct (os_unlink env _ _); cbn;
    eexists;
    (split;
     [apply new_events_app; fields; rewrite Hh, <- app_assoc; reflexivity
     | split; [reflexivity | exact Hbefore]]).
Qed.

End Unassigned.

(** C10. With [-v], an item whose transfer ends in a skip (the backend
    raised [ItemExistsError], or an exception that
    [IsNoClobberServerException] recognises) does not complete: after the
    skip has been recorded, [CopyFunc] reads [result_url], which that path
    never assigned, and raises the error of an unbound local variable.  The
    skip is not counted as a failure by [CopyFunc] itself. *)
Theorem C10_skip_with_print_ver_is_unbound (env : Env)
    (opts_tuple : OptsTuple) (self : Self) (ner : NameExpansionResult)
    (st : State) (dst_url : StorageUrl) (st1 : State) (e : Exn) :
  print_ver opts_tuple = true →
  reaches_transfer env opts_tuple self ner st dst_url st1 →
  PerformCopy env (history st1)
    (StorageUrlFromString env (GetExpandedUrlStr ner)) dst_url = Raised e →
  is_skip env e = true →
  ∃ st',
    CopyFunc env opts_tuple self ner st
    = (Raised (UnboundLocalError "result_url"), st')
    ∧ copy_failure_count st' = copy_failure_count st1.
Proof.
  intros Hver Hreach Hcopy Hskip.
  destruct (CopyFunc_unassigned env opts_tuple self ner st dst_url st1 e
              Hver Hreach Hcopy) as (st' & Hrun & Hcount).
  { now rewrite Hskip. }
  exists st'. split; [exact Hrun |]. rewrite Hcount, Hskip. lia.
Qed.

Lemma C10_skip_with_print_ver_is_unbound_witness :
  let opts := Scenario.opts false true false in
  let self := Scenario.self_to "gs://b/dst" false in
  let ner := Scenario.item "gs://b/src" in
  let st1 :=
    snd (prepare_destination Scenario.exists_already opts self ner
           Scenario.fresh) in
  print_ver opts = true
  ∧ reaches_transfer Scenario.exists_already opts self ner Scenario.fresh
      (Scenario.parse "gs://b/dst") st1
  ∧ PerformCopy Scenario.exists_already (history st1)
      (Scenario.parse "gs://b/src") (Scenario.parse "gs://b/dst")
    = Raised ItemExistsError
  ∧ is_skip Scenario.exists_already ItemExistsError = true
  ∧ fst (CopyFunc Scenario.exists_already opts self ner Scenario.fresh)
    = Raised (UnboundLocalError "result_url").
Proof.
  cbv zeta.
  assert (reaches_transfer Scenario.exists_already
            (Scenario.opts false true false)
            (Scenario.self_to "gs://b/dst" false)
            (Scenario.item "gs://b/src") Scenario.fresh
            (Scenario.parse "gs://b/dst")
            (snd (prepare_destination Scenario.exists_already
                    (Scenario.opts false true false)
                    (Scenario.self_to "gs://b/dst" false)
                    (Scenario.item "gs://b/src") Scenario.fresh)))
    as Hreach.
  { repeat split; vm_compute; reflexivity. }
  split; [reflexivity |]. split; [exact Hreach |].
  split; [reflexivity |]. split; [reflexivity |].
  destruct (C10_skip_with_print_ver_is_unbound Scenario.exists_already
              (Scenario.opts false true false)
              (Scenario.self_to "gs://b/dst" false)
              (Scenario.item "gs://b/src") Scenario.fresh
              (Scenario.parse "gs://b/dst") _ ItemExistsError
              eq_refl Hreach eq_refl eq_refl) as (st' & Hrun & _).
  now rewrite Hrun.
Defined.

(** C3, at [cp -c -v -L log gs://b/bad gs://b/src gs://b/dst] when the
    transfer of the first source breaks.  The handler counts the failure
    once and records it in the manifest; then line 622 reads the unassigned
    [result_url], the error leaves [CopyFunc], and the run stops without
    copying the second source. *)
Theorem C3_tolerated_failure_with_print_ver :
  let outcome :=
    RunCommand Scenario.flaky (Scenario.run_world (Returned (mkBucket None)))
      (Scenario.opts false true true) "cp" true 0%Z
      ["gs://b/bad"; "gs://b/src"; "gs://b/dst"] Scenario.fresh in
  fst outcome = Raised (UnboundLocalError "result_url")
  ∧ copy_failure_count (snd outcome) = 1%Z
  ∧ me_result <$> manifest (snd outcome) !! "gs://b/bad"
    = Some (Some TagError)
  ∧ filter is_transfer (history (snd outcome))
    = [EvPerformCopy (Scenario.parse "gs://b/bad")
         (Scenario.parse "gs://b/dst")
         (Raised (OtherError "connection reset"))].
Proof.
  cbv zeta. repeat split; vm_compute; reflexivity.
Qed.

(** C1, at [cp -M -n -L log gs://b/src gs://b/dst] when the destination is
    already there: the transfer raises [ItemExistsError], the item is
    recorded as skipped, [CopyFunc] returns normally, and the source has
    been removed from the bucket. *)
Theorem C1_skipped_item_loses_its_source :
  let outcome :=
    CopyFunc Scenario.exists_already
      (mkOptsTuple true true false false false true false None)
      (Scenario.self_to "gs://b/dst" false) (Scenario.item "gs://b/src")
      Scenario.fresh in
  fst outcome = Returned tt
  ∧ me_result <$> manifest (snd outcome) !! "gs://b/src"
    = Some (Some TagSkip)
  ∧ filter (λ ev, is_transfer ev || is_removal ev) (history (snd outcome))
    = [EvPerformCopy (Scenario.parse "gs://b/src")
         (Scenario.parse "gs://b/dst") (Raised ItemExistsError);
       EvDeleteObject "bucket" "gs://b/src" None "gs"].
Proof.
  cbv zeta. repeat split; vm_compute; reflexivity.
Qed.

(** ** The manifest *)

Lemma WasSuccessful_true (m : gmap string ManifestEntry) (src : string) :
  Manifest.WasSuccessful m src = true
  ↔ ∃ entry, m !! src = Some entry
             ∧ (me_result entry = Some TagOK
                ∨ me_result entry = Some TagSkip).
Proof.
  unfold Manifest.WasSuccessful. split.
  - destruct (m !! src) as [entry |]; [| discriminate].
    destruct (me_result entry) as [[] |] eqn:Hres; try discriminate;
      intros _; exists entry; auto.
  - intros (entry & -> & [-> | ->]); reflexivity.
Qed.

Lemma WasSuccessful_false (m : gmap string ManifestEntry) (src : string) :
  m !! src = None
  ∨ (∃ entry, m !! src = Some entry ∧ me_result entry = Some TagError) →
  Manifest.WasSuccessful m src = false.
Proof.
  unfold Manifest.WasSuccessful.
  intros [-> | (entry & -> & ->)]; reflexivity.
Qed.

(** C2 (as amended). With a manifest in use, an item whose expanded source
    has an [OK] or [skip] entry is never handed to the transfer backend,
    and [CopyFunc] returns on it at once if the guards before the look-up
    let it through.  An item with no entry, or with an [error] entry, goes
    past the look-up, and is handed to the backend exactly once provided
    that none of the rejections that precede the transfer applies to it. *)
Theorem C2_manifest_short_circuit (env : Env) (opts_tuple : OptsTuple)
    (self : Self) (ner : NameExpansionResult) (st : State) :
  use_manifest opts_tuple = true →
  let exp_src_url := StorageUrlFromString env (GetExpandedUrlStr ner) in
  let key := GetUrlString exp_src_url in
  ((∃ entry, manifest st !! key = Some entry
             ∧ (me_result entry = Some TagOK
                ∨ me_result entry = Some TagSkip)) →
   filter is_transfer
     (new_events st (snd (CopyFunc env opts_tuple self ner st))) = []
   ∧ (check_source env opts_tuple self ner st = (Returned tt, st) →
      CopyFunc env opts_tuple self ner st = (Returned tt, st)))
  ∧ (manifest st !! key = None
     ∨ (∃ entry, manifest st !! key = Some entry
                 ∧ me_result entry = Some TagError) →
     ∀ dst_url st1,
       check_source env opts_tuple self ner st = (Returned tt, st) →
       prepare_destination env opts_tuple self ner st
       = (Returned dst_url, st1) →
       reject_conflicts env opts_tuple self exp_src_url dst_url st1
       = (Returned tt, st1) →
       filter is_transfer
         (new_events st (snd (CopyFunc env opts_tuple self ner st)))
       = [EvPerformCopy exp_src_url dst_url
            (PerformCopy env (history st1) exp_src_url dst_url)]).
Proof.
  intros Hman exp_src_url key. split.
  - intros Hentry. apply WasSuccessful_true in Hentry.
    unfold CopyFunc, bind, get. fold exp_src_url key.
    pose proof (check_source_state env opts_tuple self ner st) as Hsrc.
    destruct (check_source env opts_tuple self ner st) as [[[] | e] st0];
      cbn in Hsrc; subst st0; rewrite ?Hman, ?Hentry; cbn [andb snd];
      unfold ret; cbn [snd];
      (split; [unfold new_events; now rewrite drop_all | congruence]).
  - intros Hentry dst_url st1 Hsrc Hdst Hconf.
    apply WasSuccessful_false in Hentry.
    assert (reaches_transfer env opts_tuple self ner st dst_url st1)
      as Hreach.
    { repeat split; try assumption. fold exp_src_url key.
      rewrite Hentry. apply andb_false_r. }
    rewrite (CopyFunc_reaches _ _ _ _ _ _ _ Hreach). unfold bind.
    fold exp_src_url.
    destruct (prepare_destination_spec env opts_tuple self ner st)
      as (d1 & Hh1 & Hno1 & _).
    rewrite Hdst in Hh1. cbn [snd] in Hh1.
    destruct (copy_transfer_spec env opts_tuple self
                (StorageUrlFromString env (GetSrcUrlStr ner))
                exp_src_url dst_url st1)
      as (logs & Hh2 & Hno2 & _).
    destruct (copy_transfer _ _ _ _ _ _ _) as [[locals | e] st2];
      cbn [fst snd] in *.
    + destruct (copy_finish_spec env opts_tuple exp_src_url dst_url st2
                  locals) as (d3 & Hh3 & Hno3 & _).
      rewrite (new_events_app st _ (d1 ++ EvPerformCopy exp_src_url dst_url
                 (PerformCopy env (history st1) exp_src_url dst_url)
                 :: logs ++ d3)).
      * rewrite filter_app, Hno1, app_nil_l.
        rewrite filter_cons_True by exact I.
        now rewrite filter_app, Hno2, Hno3.
      * rewrite Hh3, Hh2, Hh1, <- !app_assoc. reflexivity.
    + rewrite (new_events_app st _ (d1 ++ EvPerformCopy exp_src_url dst_url
                 (PerformCopy env (history st1) exp_src_url dst_url)
                 :: logs)).
      * rewrite filter_app, Hno1, app_nil_l.
        rewrite filter_cons_True by exact I. now rewrite Hno2.
      * rewrite Hh2, Hh1, <- !app_assoc. reflexivity.
Qed.

Lemma C2_manifest_short_circuit_witness :
  let recorded :=
    mkState (Manifest.SetResult ∅ "gs://b/src" 10%Z TagOK None)
            0%Z 0%float 0%Z false [] in
  use_manifest (Scenario.opts false false true) = true
  ∧ manifest recorded !! "gs://b/src"
    = Some (mkManifestEntry "" 10%Z None (Some TagOK) None)
  ∧ CopyFunc Scenario.fine (Scenario.opts false false true)
      (Scenario.self_to "gs://b/dst" false) (Scenario.item "gs://b/src")
      recorded
    = (Returned tt, recorded).
Proof.
  cbv zeta. split; [reflexivity |].
  assert (manifest
            (mkState (Manifest.SetResult ∅ "gs://b/src" 10%Z TagOK None)
                     0%Z 0%float 0%Z false []) !! "gs://b/src"
          = Some (mkManifestEntry "" 10%Z None (Some TagOK) None))
    as Hentry by (vm_compute; reflexivity).
  split; [exact Hentry |].
  refine (proj2 (proj1 (C2_manifest_short_circuit Scenario.fine
                          (Scenario.opts false false true)
                          (Scenario.self_to "gs://b/dst" false)
                          (Scenario.item "gs://b/src") _ eq_refl) _) _).
  - eexists. split; [exact Hentry | left; reflexivity].
  - vm_compute; reflexivity.
Defined.

(** [cp -L log gs://b/obj gs://b/obj] with an empty manifest: the item has
    no entry, and yet it is not transferred, because it is rejected as a
    copy onto itself. *)
Lemma C2_unrecorded_item_not_transferred :
  let outcome :=
    CopyFunc Scenario.fine (Scenario.opts false false true)
      (Scenario.self_to "gs://b/obj" false) (Scenario.item "gs://b/obj")
      Scenario.fresh in
  use_manifest (Scenario.opts false false true) = true
  ∧ manifest Scenario.fresh !! "gs://b/obj" = None
  ∧ is_Raised (fst outcome) = true
  ∧ filter is_transfer (history (snd outcome)) = [].
Proof.
  cbv zeta. repeat split; vm_compute; reflexivity.
Qed.

(** ** The probe of the versioning state *)

Section Probe.

Context (env : Env) (renv : RunEnv) (opts_tuple : OptsTuple).
Context (the_command_name : string) (the_continue_on_error : bool)
        (the_debug : Z).




End Probe.



(** * Further properties of the code *)

(** ** [_ParseOpts] *)

Ltac opt_cases o :=
  repeat match goal with
         | |- context [String.eqb o ?s] =>
             destruct (String.eqb_spec o s) as [-> |]; cbn
         end.

(** One turn of the loop, flag by flag. *)
Lemma parse_opt_flags (p : ParseState) (o a : string) :
  let p' := parse_opt p (o, a) in
  perform_mv (ps_opts p') = perform_mv (ps_opts p) || String.eqb o "-M"
  ∧ no_clobber (ps_opts p') = no_clobber (ps_opts p) || String.eqb o "-n"
  ∧ daisy_chain (ps_opts p') = daisy_chain (ps_opts p) || String.eqb o "-D"
  ∧ read_args_from_stdin (ps_opts p')
    = read_args_from_stdin (ps_opts p) || String.eqb o "-I"
  ∧ print_ver (ps_opts p') = print_ver (ps_opts p) || String.eqb o "-v"
  ∧ use_manifest (ps_opts p') = use_manifest (ps_opts p) || String.eqb o "-L"
  ∧ preserve_acl (ps_opts p') = preserve_acl (ps_opts p) || String.eqb o "-p"
  ∧ canned_acl (ps_opts p')
    = (if String.eqb o "-a" then Some a else canned_acl (ps_opts p)).
Proof.
  unfold parse_opt. cbn [fst snd].
  opt_cases o; rewrite ?orb_true_r, ?orb_false_r; repeat split.
Qed.

Lemma parse_opt_self (p : ParseState) (o a : string) :
  let p' := parse_opt p (o, a) in
  ps_continue_on_error p' = ps_continue_on_error p || String.eqb o "-c"
  ∧ ps_opts_continue_on_error p' = ps_opts_continue_on_error p
  ∧ ps_exclude_symlinks p' = ps_exclude_symlinks p || String.eqb o "-e"
  ∧ ps_recursion_requested p'
    = ps_recursion_requested p || (String.eqb o "-r" || String.eqb o "-R")
  ∧ ps_manifest p' = (if String.eqb o "-L" then Some a else ps_manifest p)
  ∧ ps_acl_arg p' = (if String.eqb o "-a" then Some a else ps_acl_arg p)
  ∧ ps_canned p' = (if String.eqb o "-a" then Some true else ps_canned p)
  ∧ ps_def_acl p' = (if String.eqb o "-a" then Some false else ps_def_acl p).
Proof.
  unfold parse_opt. cbn [fst snd].
  opt_cases o; rewrite ?orb_true_r, ?orb_false_r; repeat split.
Qed.

Lemma parse_opt_unknown (p : ParseState) (oa : string * string) :
  is_parsed oa = false → parse_opt p oa = p.
Proof.
  destruct oa as [o a]. unfold is_parsed, parsed_letters, parse_opt.
  cbn [fst snd existsb].
  opt_cases o; try discriminate. reflexivity.
Qed.

(** The loop as a whole, from any state. *)
Lemma parse_loop_flags (sub_opts : list (string * string)) (p : ParseState) :
  let p' := fold_left parse_opt sub_opts p in
  perform_mv (ps_opts p') = perform_mv (ps_opts p) || has_opt "-M" sub_opts
  ∧ no_clobber (ps_opts p') = no_clobber (ps_opts p) || has_opt "-n" sub_opts
  ∧ daisy_chain (ps_opts p')
    = daisy_chain (ps_opts p) || has_opt "-D" sub_opts
  ∧ read_args_from_stdin (ps_opts p')
    = read_args_from_stdin (ps_opts p) || has_opt "-I" sub_opts
  ∧ print_ver (ps_opts p') = print_ver (ps_opts p) || has_opt "-v" sub_opts
  ∧ use_manifest (ps_opts p')
    = use_manifest (ps_opts p) || has_opt "-L" sub_opts
  ∧ preserve_acl (ps_opts p')
    = preserve_acl (ps_opts p) || has_opt "-p" sub_opts
  ∧ canned_acl (ps_opts p')
    = last_arg_from (canned_acl (ps_opts p)) "-a" sub_opts.
Proof.
  revert p. induction sub_opts as [| [o a] l IH]; intros p; cbn.
  - rewrite !orb_false_r. repeat split.
  - destruct (parse_opt_flags p o a)
      as (H1 & H2 & H3 & H4 & H5 & H6 & H7 & H8).
    destruct (IH (parse_opt p (o, a)))
      as (I1 & I2 & I3 & I4 & I5 & I6 & I7 & I8).
    cbv zeta in *. unfold last_arg_from in *. cbn [fold_left fst snd].
    rewrite I1, I2, I3, I4, I5, I6, I7, I8, H1, H2, H3, H4, H5, H6, H7, H8.
    rewrite !orb_assoc. repeat split.
Qed.

Lemma parse_loop_self (sub_opts : list (string * string)) (p : ParseState) :
  let p' := fold_left parse_opt sub_opts p in
  ps_continue_on_error p' = ps_continue_on_error p || has_opt "-c" sub_opts
  ∧ ps_opts_continue_on_error p' = ps_opts_continue_on_error p
  ∧ ps_exclude_symlinks p' = ps_exclude_symlinks p || has_opt "-e" sub_opts
  ∧ ps_recursion_requested p'
    = ps_recursion_requested p
      || (has_opt "-r" sub_opts || has_opt "-R" sub_opts)
  ∧ ps_manifest p' = last_arg_from (ps_manifest p) "-L" sub_opts
  ∧ ps_acl_arg p' = last_arg_from (ps_acl_arg p) "-a" sub_opts.
Proof.
  revert p. induction sub_opts as [| [o a] l IH]; intros p; cbn.
  - rewrite !orb_false_r. repeat split.
  - destruct (parse_opt_self p o a) as (H1 & H2 & H3 & H4 & H5 & H6 & _).
    destruct (IH (parse_opt p (o, a))) as (I1 & I2 & I3 & I4 & I5 & I6).
    cbv zeta in *. unfold last_arg_from in *. cbn [fold_left fst snd].
    rewrite I1, I2, I3, I4, I5, I6, H1, H2, H3, H4, H5, H6.
    repeat split; try (rewrite !orb_assoc; reflexivity).
    unfold has_opt.
    destruct (ps_recursion_requested p), (String.eqb o "-r"),
      (String.eqb o "-R"), (existsb _ l), (existsb _ l); reflexivity.
Qed.

(** X1. [_ParseOpts] raises exactly when [-p] is among the options and the
    argument of the last [-a] is not empty, wherever the two stand in the
    command line; the exception is the [CommandException] of line 828. *)
Theorem ParseOpts_rejects_p_with_a (sub_opts : list (string * string))
    (recursion_requested0 : bool) :
  is_Raised (fst (_ParseOpts sub_opts recursion_requested0))
  = has_opt "-p" sub_opts && truthy (last_arg "-a" sub_opts)
  ∧ (is_Raised (fst (_ParseOpts sub_opts recursion_requested0)) = true →
     fst (_ParseOpts sub_opts recursion_requested0)
     = Raised (CommandException
                 "Specifying both the -p and -a options together is invalid.")).
Proof.
  unfold _ParseOpts.
  destruct (parse_loop_flags sub_opts (parse_init recursion_requested0))
    as (_ & _ & _ & _ & _ & _ & Hp & Ha).
  cbv zeta in *. rewrite Hp, Ha. cbn [parse_init ps_opts preserve_acl
    canned_acl orb]. fold (last_arg "-a" sub_opts).
  destruct (has_opt "-p" sub_opts && truthy (last_arg "-a" sub_opts));
    cbn; split; (reflexivity || discriminate).
Qed.

Lemma ParseOpts_rejects_p_with_a_witness :
  is_Raised (fst (_ParseOpts [("-a", "public-read"); ("-v", ""); ("-p", "")]
                    false)) = true
  ∧ fst (_ParseOpts [("-a", "public-read"); ("-v", ""); ("-p", "")] false)
    = Raised (CommandException
                "Specifying both the -p and -a options together is invalid.").
Proof.
  split; [reflexivity |].
  exact (proj2 (ParseOpts_rejects_p_with_a
                  [("-a", "public-read"); ("-v", ""); ("-p", "")] false)
           eq_refl).
Defined.

(** X2. When [_ParseOpts] returns, every flag of the options tuple says
    whether its letter occurs among the options, in any position and any
    number of times, and [canned_acl] is the argument of the last [-a]. *)
Theorem ParseOpts_flags (sub_opts : list (string * string))
    (recursion_requested0 : bool) (opts_tuple : OptsTuple) :
  fst (_ParseOpts sub_opts recursion_requested0) = Returned opts_tuple →
  perform_mv opts_tuple = has_opt "-M" sub_opts
  ∧ no_clobber opts_tuple = has_opt "-n" sub_opts
  ∧ daisy_chain opts_tuple = has_opt "-D" sub_opts
  ∧ read_args_from_stdin opts_tuple = has_opt "-I" sub_opts
  ∧ print_ver opts_tuple = has_opt "-v" sub_opts
  ∧ use_manifest opts_tuple = has_opt "-L" sub_opts
  ∧ preserve_acl opts_tuple = has_opt "-p" sub_opts
  ∧ canned_acl opts_tuple = last_arg "-a" sub_opts.
Proof.
  unfold _ParseOpts.
  pose proof (parse_loop_flags sub_opts (parse_init recursion_requested0))
    as H. cbv zeta in H.
  destruct (preserve_acl _ && truthy _); [discriminate |].
  cbn [fst]. intros [= <-]. exact H.
Qed.

Lemma ParseOpts_flags_witness :
  fst (_ParseOpts [("-M", ""); ("-a", "private"); ("-L", "log");
                   ("-a", "public-read")] false)
  = Returned (mkOptsTuple true false false false false true false
                (Some "public-read"))
  ∧ canned_acl (mkOptsTuple true false false false false true false
                  (Some "public-read"))
    = last_arg "-a" [("-M", ""); ("-a", "private"); ("-L", "log");
                     ("-a", "public-read")].
Proof.
  split; [reflexivity |].
  exact (proj2 (proj2 (proj2 (proj2 (proj2 (proj2 (proj2
           (ParseOpts_flags
              [("-M", ""); ("-a", "private"); ("-L", "log");
               ("-a", "public-read")] false _ eq_refl)))))))).
Defined.

(** X3. Whether it returns or raises, [_ParseOpts] leaves on the command
    object: [continue_on_error] set exactly by [-c] (the attribute of the
    same name in the options tuple stays false), [exclude_symlinks] set
    exactly by [-e], [recursion_requested] set by [-r] or [-R] and
    otherwise as the base class left it, and the manifest opened on the
    argument of the last [-L]. *)
Theorem ParseOpts_self (sub_opts : list (string * string))
    (recursion_requested0 : bool) :
  let p := snd (_ParseOpts sub_opts recursion_requested0) in
  ps_continue_on_error p = has_opt "-c" sub_opts
  ∧ ps_opts_continue_on_error p = false
  ∧ ps_exclude_symlinks p = has_opt "-e" sub_opts
  ∧ ps_recursion_requested p
    = recursion_requested0
      || (has_opt "-r" sub_opts || has_opt "-R" sub_opts)
  ∧ ps_manifest p = last_arg "-L" sub_opts
  ∧ ps_acl_arg p = last_arg "-a" sub_opts.
Proof.
  pose proof (parse_loop_self sub_opts (parse_init recursion_requested0))
    as H. cbv zeta in *.
  unfold _ParseOpts. destruct (preserve_acl _ && truthy _); exact H.
Qed.

(** X4. Options whose letter the loop does not test ([-N], [-t], [-z] of
    [CP_SUB_ARGS], or any other) change nothing: parsing with them removed
    gives the same result and the same command object. *)
Theorem ParseOpts_ignores_other_options (sub_opts : list (string * string))
    (recursion_requested0 : bool) :
  _ParseOpts (List.filter is_parsed sub_opts) recursion_requested0
  = _ParseOpts sub_opts recursion_requested0.
Proof.
  unfold _ParseOpts.
  assert (∀ p, fold_left parse_opt (List.filter is_parsed sub_opts) p
               = fold_left parse_opt sub_opts p) as ->; [| reflexivity].
  induction sub_opts as [| oa l IH]; intros p; [reflexivity |].
  cbn [List.filter]. destruct (is_parsed oa) eqn:Hoa; cbn [fold_left].
  - apply IH.
  - rewrite (parse_opt_unknown p oa Hoa). apply IH.
Qed.

(** ** What [CopyFunc] leaves alone *)

Lemma failures_reported_app (env : Env) (h1 h2 : list Event) :
  failures_reported env (h1 ++ h2)
  = (failures_reported env h1 + failures_reported env h2)%Z.
Proof.
  unfold failures_reported.
  induction h1 as [| ev h1 IH]; [reflexivity |].
  cbn. destruct ev as [| | | | ? ? [cr | e] | | |]; rewrite ?IH; try lia.
  destruct (is_skip env e); lia.
Qed.

Lemma failures_reported_no_transfer (env : Env) (h : list Event) :
  filter is_transfer h = [] → failures_reported env h = 0%Z.
Proof.
  unfold failures_reported.
  induction h as [| ev h IH]; [reflexivity |].
  destruct ev; cbn; try exact IH. discriminate.
Qed.

Lemma failures_reported_nonneg (env : Env) (h : list Event) :
  (0 ≤ failures_reported env h)%Z.
Proof.
  unfold failures_reported.
  induction h as [| ev h IH]; cbn; [lia |].
  destruct ev as [| | | | ? ? [cr | e] | | |]; try exact IH.
  destruct (is_skip env e); lia.
Qed.

Ltac events_since :=
  unfold new_events; fields; rewrite ?drop_all, ?drop_app_length;
  reflexivity.

Section Frame.

Context (env : Env) (opts_tuple : OptsTuple) (self : Self).

Implicit Types (st : State) (e : Exn) (ner : NameExpansionResult).
Implicit Types (src_url exp_src_url dst_url : StorageUrl).

Lemma prepare_destination_recursion ner st :
  perform_mv opts_tuple = false →
  recursion_requested (snd (prepare_destination env opts_tuple self ner st))
  = recursion_requested st.
Proof.
  intros Hmv. unfold prepare_destination. exec. rewrite Hmv. cbn.
  destruct (IsFileUrl _ && negb (os_path_exists _ _ _) && _); cbn.
  - destruct (os_makedirs _ _ _); cbn; [reflexivity |].
    now destruct (CheckForDirFileConflict _ _ _ _).
  - now destruct (CheckForDirFileConflict _ _ _ _).
Qed.

(** The transfer stage changes neither [recursion_requested] nor, without
    [-L], the manifest; it counts a failure exactly when the backend raised
    an exception that is not a skip and [-c] is set. *)
Lemma copy_transfer_frame src_url exp_src_url dst_url st :
  let answer := PerformCopy env (history st) exp_src_url dst_url in
  let st' :=
    snd (copy_transfer env opts_tuple self src_url exp_src_url dst_url st) in
  recursion_requested st' = recursion_requested st
  ∧ (use_manifest opts_tuple = false → manifest st' = manifest st)
  ∧ copy_failure_count st'
    = (copy_failure_count st
       + if continue_on_error self
         then failures_reported env
                [EvPerformCopy exp_src_url dst_url answer]
         else 0)%Z.
Proof.
  unfold copy_transfer, copy_try, copy_except, record_skip, is_skip,
    failures_reported. exec.
  destruct (use_manifest opts_tuple); cbn;
    (destruct (PerformCopy env (history st) exp_src_url dst_url)
       as [cr | e]; cbn;
     [| unfold is_skip; destruct (is_ItemExistsError e); cbn;
        [| destruct (IsNoClobberServerException env e); cbn;
           [| destruct (continue_on_error self); cbn]]]);
    repeat split; try discriminate; try lia;
    destruct (continue_on_error self); lia.
Qed.

(** The last stage changes neither [recursion_requested] nor the failure
    counter; it removes nothing in a copy, and in a move at most the
    source, by one call. *)
Lemma copy_finish_frame exp_src_url dst_url st
    (locals : float * Z * option StorageUrl) :
  let r := copy_finish env opts_tuple exp_src_url dst_url locals st in
  recursion_requested (snd r) = recursion_requested st
  ∧ (filter is_removal (new_events st (snd r)) = []
     ∨ perform_mv opts_tuple = true
       ∧ filter is_removal (new_events st (snd r))
         = [removal_event exp_src_url])
  ∧ (fst r = Returned tt → perform_mv opts_tuple = true →
     filter is_removal (new_events st (snd r))
     = [removal_event exp_src_url]).
Proof.
  destruct locals as [[elapsed_time bytes_transferred] result_url].
  assert (∀ s : State, filter is_removal (new_events s s) = []) as Hnil.
  { intros s. unfold new_events. now rewrite drop_all. }
  unfold copy_finish, remove_source, removal_event. exec.
  destruct (print_ver opts_tuple); cbn;
    [destruct result_url as [u |]; cbn |];
    try (split; [reflexivity | split; [left; apply Hnil | discriminate]]);
    destruct (truthy (canned_acl opts_tuple)); cbn;
    try destruct (SetAclFunc env _ _); cbn;
    destruct (perform_mv opts_tuple); cbn;
    destruct (IsCloudUrl exp_src_url); cbn;
    try destruct (DeleteObject env _ _ _ _ _);
    try destruct (os_unlink env _ _); cbn;
    (split; [reflexivity |]);
    (split;
     [first [left; events_since | right; split; [reflexivity |]; events_since]
     | intros Hr Hm; first [discriminate Hr | discriminate Hm | events_since]
     ]).
Qed.

End Frame.

Section Shape.

Context (env : Env) (opts_tuple : OptsTuple) (self : Self).

Implicit Types (st : State) (e : Exn) (ner : NameExpansionResult).

(** The shape of what one call of [CopyFunc] adds to the history: events
    that are neither transfers nor removals, then possibly one transfer
    followed by events among which there is no transfer and at most the
    removal of the source. *)
Lemma CopyFunc_shape ner st :
  let exp_src_url := StorageUrlFromString env (GetExpandedUrlStr ner) in
  let st' := snd (CopyFunc env opts_tuple self ner st) in
  ∃ before after : list Event,
    history st' = (history st ++ before ++ after)%list
    ∧ filter is_transfer before = []
    ∧ filter is_removal before = []
    ∧ (after = []
       ∨ ∃ dst_url answer rest,
           after = EvPerformCopy exp_src_url dst_url answer :: rest
           ∧ filter is_transfer rest = []
           ∧ (filter is_removal rest = []
              ∨ perform_mv opts_tuple = true
                ∧ filter is_removal rest = [removal_event exp_src_url]))
    ∧ (use_manifest opts_tuple = false → manifest st' = manifest st)
    ∧ (perform_mv opts_tuple = false →
       recursion_requested st' = recursion_requested st)
    ∧ copy_failure_count st'
      = (copy_failure_count st
         + if continue_on_error self
           then failures_reported env (before ++ after)
           else 0)%Z.
Proof.
  cbv zeta.
  assert (∀ c : Z, c = (c + if continue_on_error self then 0 else 0)%Z)
    as Hzero by (intros c; destruct (continue_on_error self); lia).
  destruct (CopyFunc env opts_tuple self ner st) as [o st'] eqn:Hrun.
  cbn [snd]. revert Hrun.
  unfold CopyFunc, copy_item, bind at 1 2, get.
  pose proof (check_source_state env opts_tuple self ner st) as Hsrc.
  destruct (check_source env opts_tuple self ner st) as [[[] | e] st0];
    cbn in Hsrc; subst st0.
  2: { intros [= _ <-]. exists [], []. cbn. rewrite app_nil_r. repeat split; auto. }
  destruct (use_manifest opts_tuple && Manifest.WasSuccessful _ _).
  { intros [= _ <-]. exists [], []. cbn. rewrite app_nil_r. repeat split; auto. }
  unfold bind at 1.
  destruct (prepare_destination_spec env opts_tuple self ner st)
    as (d1 & Hh1 & Hno1 & Hrm1 & Hm1 & Hc1 & _ & _ & _).
  pose proof (prepare_destination_recursion env opts_tuple self ner st)
    as Hr1.
  destruct (prepare_destination env opts_tuple self ner st)
    as [[dst_url | e] st1]; cbn [fst snd] in *.
  2: { intros [= _ <-]. exists d1, []. rewrite app_nil_r,
         (failures_reported_no_transfer env d1 Hno1).
       repeat split; auto; congruence. }
  unfold bind at 1.
  pose proof (reject_conflicts_state env opts_tuple self
                (StorageUrlFromString env (GetExpandedUrlStr ner))
                dst_url st1) as Hconf.
  destruct (reject_conflicts _ _ _ _ _ _) as [[[] | e] st2];
    cbn in Hconf; subst st2; cbn [snd].
  2: { intros [= _ <-]. exists d1, []. rewrite app_nil_r,
         (failures_reported_no_transfer env d1 Hno1).
       repeat split; auto; congruence. }
  unfold bind at 1.
  destruct (copy_transfer_spec env opts_tuple self
              (StorageUrlFromString env (GetSrcUrlStr ner))
              (StorageUrlFromString env (GetExpandedUrlStr ner))
              dst_url st1)
    as (logs & Hh2 & Hno2 & Hrm2 & _).
  destruct (copy_transfer_frame env opts_tuple self
              (StorageUrlFromString env (GetSrcUrlStr ner))
              (StorageUrlFromString env (GetExpandedUrlStr ner))
              dst_url st1)
    as (Hr2 & Hm2 & Hc2).
  destruct (copy_transfer _ _ _ _ _ _ _) as [[locals | e] st2];
    cbn [fst snd] in *.
  2: { intros [= _ <-]. eexists d1, (_ :: logs). rewrite Hh2, Hh1, <- app_assoc.
       split; [reflexivity |]. split; [exact Hno1 |]. split; [exact Hrm1 |].
       split; [right; eexists _, _, _; split; [reflexivity |]; auto |].
       split; [intros Hman; rewrite (Hm2 Hman); exact Hm1 |].
       split; [intros Hmv; rewrite Hr2; auto |].
       rewrite Hc2, Hc1, failures_reported_app,
         (failures_reported_no_transfer env d1 Hno1).
       change (?x :: logs)%list with ([x] ++ logs)%list.
       rewrite failures_reported_app,
         (failures_reported_no_transfer env logs Hno2).
       rewrite <- ?Hh1. destruct (continue_on_error self); lia. }
  destruct (copy_finish_spec env opts_tuple
              (StorageUrlFromString env (GetExpandedUrlStr ner))
              dst_url st2 locals)
    as (d3 & Hh3 & Hno3 & Hm3 & Hc3 & _).
  destruct (copy_finish_frame env opts_tuple
              (StorageUrlFromString env (GetExpandedUrlStr ner))
              dst_url st2 locals)
    as (Hr3 & Hrm3 & _).
  rewrite (new_events_app _ _ _ Hh3) in Hrm3.
  destruct (copy_finish _ _ _ _ _ _) as [o' st3]; cbn [fst snd] in *.
  intros [= _ <-].
  eexists d1, (_ :: logs ++ d3)%list.
  rewrite Hh3, Hh2, Hh1, <- !app_assoc.
  split; [reflexivity |]. split; [exact Hno1 |]. split; [exact Hrm1 |].
  split.
  { right. eexists _, _, _. split; [reflexivity |].
    rewrite !filter_app, Hno2, Hno3, Hrm2. auto. }
  split; [intros Hman; rewrite Hm3, (Hm2 Hman); exact Hm1 |].
  split; [intros Hmv; rewrite Hr3, Hr2; auto |].
  rewrite Hc3, Hc2, Hc1, failures_reported_app,
    (failures_reported_no_transfer env d1 Hno1).
  change (?x :: logs ++ d3)%list with ([x] ++ (logs ++ d3))%list.
  rewrite failures_reported_app,
    (failures_reported_no_transfer env (logs ++ d3))
    by (rewrite filter_app, Hno2, Hno3; reflexivity).
  rewrite <- ?Hh1. destruct (continue_on_error self); lia.
Qed.

End Shape.

(** X5. In a copy ([perform_mv] false) [CopyFunc] never calls
    [DeleteObject] or [os.unlink], whatever the backend answers, and it
    leaves [recursion_requested] as it was. *)
Theorem cp_never_removes (env : Env) (opts_tuple : OptsTuple) (self : Self)
    (ner : NameExpansionResult) (st : State) :
  perform_mv opts_tuple = false →
  filter is_removal
    (new_events st (snd (CopyFunc env opts_tuple self ner st))) = []
  ∧ recursion_requested (snd (CopyFunc env opts_tuple self ner st))
    = recursion_requested st.
Proof.
  intros Hmv.
  destruct (CopyFunc_shape env opts_tuple self ner st)
    as (before & after & Hh & _ & Hrm & Hafter & _ & Hrec & _).
  split; [| exact (Hrec Hmv)].
  rewrite (new_events_app _ _ _ Hh), filter_app, Hrm.
  destruct Hafter as [-> | (dst & answer & rest & -> & _ & [Hnone | [Hyes _]])].
  - reflexivity.
  - rewrite filter_cons_False by (cbn; auto). exact Hnone.
  - congruence.
Qed.

Lemma cp_never_removes_witness :
  perform_mv (Scenario.opts false false false) = false
  ∧ filter is_removal
      (new_events Scenario.fresh
         (snd (CopyFunc Scenario.fine (Scenario.opts false false false)
                 (Scenario.self_to "gs://b/dst" false)
                 (Scenario.item "gs://b/src") Scenario.fresh))) = [].
Proof.
  split; [reflexivity |].
  exact (proj1 (cp_never_removes Scenario.fine
                  (Scenario.opts false false false)
                  (Scenario.self_to "gs://b/dst" false)
                  (Scenario.item "gs://b/src") Scenario.fresh eq_refl)).
Defined.

(** X6. Without [-L] ([use_manifest] false) [CopyFunc] leaves the manifest
    untouched on every path, normal or exceptional. *)
Theorem CopyFunc_without_manifest (env : Env) (opts_tuple : OptsTuple)
    (self : Self) (ner : NameExpansionResult) (st : State) :
  use_manifest opts_tuple = false →
  manifest (snd (CopyFunc env opts_tuple self ner st)) = manifest st.
Proof.
  intros Hman.
  destruct (CopyFunc_shape env opts_tuple self ner st)
    as (before & after & _ & _ & _ & _ & Hm & _).
  exact (Hm Hman).
Qed.

Lemma CopyFunc_without_manifest_witness :
  use_manifest (Scenario.opts true false false) = false
  ∧ manifest (snd (CopyFunc Scenario.flaky (Scenario.opts true false false)
                     (Scenario.self_to "gs://b/dst" true)
                     (Scenario.item "gs://b/bad") Scenario.fresh))
    = manifest Scenario.fresh.
Proof.
  split; [reflexivity |].
  exact (CopyFunc_without_manifest Scenario.flaky
           (Scenario.opts true false false)
           (Scenario.self_to "gs://b/dst" true)
           (Scenario.item "gs://b/bad") Scenario.fresh eq_refl).
Defined.

(** X7. One call of [CopyFunc] calls the transfer backend at most once.
    It removes at most one thing, the source of the item, only in a move,
    and only after it has called the backend for that item. *)
Theorem CopyFunc_transfers_once_and_removes_after (env : Env)
    (opts_tuple : OptsTuple) (self : Self) (ner : NameExpansionResult)
    (st : State) :
  let exp_src_url := StorageUrlFromString env (GetExpandedUrlStr ner) in
  let delta := new_events st (snd (CopyFunc env opts_tuple self ner st)) in
  (length (filter is_transfer delta) ≤ 1)%nat
  ∧ (filter is_removal delta = []
     ∨ perform_mv opts_tuple = true
       ∧ ∃ (before : list Event) dst_url answer (rest : list Event),
           delta
           = (before ++ EvPerformCopy exp_src_url dst_url answer :: rest)%list
           ∧ filter is_removal before = []
           ∧ filter is_removal rest = [removal_event exp_src_url]).
Proof.
  intros exp_src_url delta. subst delta.
  destruct (CopyFunc_shape env opts_tuple self ner st)
    as (before & after & Hh & Hno & Hrm & Hafter & _).
  rewrite (new_events_app _ _ _ Hh).
  destruct Hafter
    as [-> | (dst & answer & rest & -> & Hnot & [Hnone | [Hmv Hone]])].
  - rewrite app_nil_r, Hno, Hrm. cbn. split; [lia | now left].
  - rewrite !filter_app, Hno, Hrm.
    rewrite filter_cons_True by exact I.
    rewrite filter_cons_False by (cbn; auto).
    rewrite Hnot, Hnone. cbn. split; [lia | now left].
  - rewrite filter_app, Hno.
    rewrite filter_cons_True by exact I. rewrite Hnot. cbn.
    split; [lia |]. right. split; [exact Hmv |].
    now exists before, dst, answer, rest.
Qed.

(** X8. [CopyFunc] counts a failure only under [-c]: with
    [continue_on_error] its failure counter grows by the number of
    transfers of that call (none or one) that raised an exception which is
    not a skip; without it the counter never changes.  The counter never
    decreases. *)
Theorem CopyFunc_failure_count (env : Env) (opts_tuple : OptsTuple)
    (self : Self) (ner : NameExpansionResult) (st : State) :
  let st' := snd (CopyFunc env opts_tuple self ner st) in
  copy_failure_count st'
  = (copy_failure_count st
     + if continue_on_error self
       then failures_reported env (new_events st st')
       else 0)%Z
  ∧ (copy_failure_count st ≤ copy_failure_count st')%Z
  ∧ (failures_reported env (new_events st st') ≤ 1)%Z.
Proof.
  cbv zeta.
  destruct (CopyFunc_shape env opts_tuple self ner st)
    as (before & after & Hh & Hno & _ & Hafter & _ & _ & Hcount).
  rewrite (new_events_app _ _ _ Hh).
  split; [exact Hcount |].
  pose proof (failures_reported_nonneg env (before ++ after)) as Hpos.
  split; [rewrite Hcount; destruct (continue_on_error self); lia |].
  rewrite failures_reported_app, (failures_reported_no_transfer _ _ Hno).
  destruct Hafter as [-> | (dst & answer & rest & -> & Hnot & _)];
    [cbn; lia |].
  change (?x :: rest)%list with ([x] ++ rest)%list.
  rewrite failures_reported_app, (failures_reported_no_transfer _ _ Hnot).
  unfold failures_reported. cbn.
  destruct answer as [cr | e]; [lia |]. destruct (is_skip env e); lia.
Qed.

(** ** Particular paths through [CopyFunc] *)

Section Paths.

Context (env : Env) (opts_tuple : OptsTuple) (self : Self).

Implicit Types (st : State) (e : Exn) (ner : NameExpansionResult).

(** X9. Without [-c], a transfer that raises an exception which is not a
    skip makes [CopyFunc] raise that very exception.  Between the call of
    the backend and the raise the handler only classifies the exception
    and, with [-L], records an error entry with [str(e)] in the manifest
    (without [-L] the manifest is left as it was): the logger, the ACL
    step and the removal of the source are not called, so that in a move
    the source is kept, and neither the failure counter nor the counters of
    bytes and time change. *)
Theorem failed_transfer_without_continue_on_error ner st dst_url st1 e :
  continue_on_error self = false →
  reaches_transfer env opts_tuple self ner st dst_url st1 →
  PerformCopy env (history st1)
    (StorageUrlFromString env (GetExpandedUrlStr ner)) dst_url = Raised e →
  is_skip env e = false →
  let exp_src_url := StorageUrlFromString env (GetExpandedUrlStr ner) in
  let st' := snd (CopyFunc env opts_tuple self ner st) in
  fst (CopyFunc env opts_tuple self ner st) = Raised e
  ∧ new_events st1 st' = [EvPerformCopy exp_src_url dst_url (Raised e)]
  ∧ (use_manifest opts_tuple = true →
     manifest st' !! GetUrlString exp_src_url
     = Some (mkManifestEntry (GetUrlString dst_url) 0%Z None
               (Some TagError) (Some (exn_str e))))
  ∧ (use_manifest opts_tuple = false → manifest st' = manifest st1)
  ∧ copy_failure_count st' = copy_failure_count st1
  ∧ total_bytes_transferred st' = total_bytes_transferred st1
  ∧ total_elapsed_time st' = total_elapsed_time st1.
Proof.
  intros Hcont Hreach Hcopy Hskip exp_src_url st'. subst exp_src_url st'.
  rewrite (CopyFunc_reaches _ _ _ _ _ _ _ Hreach). unfold bind.
  pose proof (copy_transfer_frame env opts_tuple self
                (StorageUrlFromString env (GetSrcUrlStr ner))
                (StorageUrlFromString env (GetExpandedUrlStr ner))
                dst_url st1) as Hframe.
  cbv zeta in Hframe. destruct Hframe as (_ & Hframe & _).
  destruct (copy_transfer_fatal env opts_tuple self
              (StorageUrlFromString env (GetSrcUrlStr ner)) _ _ _ _
              Hcopy Hskip Hcont) as (st2 & Hrun & Hh & Hc & Ht & Hb & Hm).
  rewrite Hrun in Hframe |- *.
  cbn [fst snd] in *. rewrite (new_events_app _ _ _ Hh).
  repeat split; auto.
Qed.

(** X10. In a move under [-c] (without [-v] and [-a]), a transfer that
    raises an exception which is not a skip is counted as one failure, and
    [CopyFunc] then goes on to remove the source all the same. *)
Theorem tolerated_failure_in_move_removes_source ner st dst_url st1 e :
  perform_mv opts_tuple = true →
  continue_on_error self = true →
  print_ver opts_tuple = false →
  truthy (canned_acl opts_tuple) = false →
  reaches_transfer env opts_tuple self ner st dst_url st1 →
  PerformCopy env (history st1)
    (StorageUrlFromString env (GetExpandedUrlStr ner)) dst_url = Raised e →
  is_skip env e = false →
  let src_url := StorageUrlFromString env (GetSrcUrlStr ner) in
  let exp_src_url := StorageUrlFromString env (GetExpandedUrlStr ner) in
  let st' := snd (CopyFunc env opts_tuple self ner st) in
  new_events st1 st'
  = [EvPerformCopy exp_src_url dst_url (Raised e);
     EvLog LogError
       ("Error copying " +:+ GetUrlString src_url +:+ ": " +:+ exn_str e);
     EvLog LogInfo ("Removing " +:+ GetUrlString exp_src_url +:+ "...");
     removal_event exp_src_url]
  ∧ copy_failure_count st' = (copy_failure_count st1 + 1)%Z.
Proof.
  intros Hmv Hcont Hver Hacl Hreach Hcopy Hskip src_url exp_src_url st'.
  subst src_url exp_src_url st'.
  rewrite (CopyFunc_reaches _ _ _ _ _ _ _ Hreach). unfold bind.
  destruct (copy_transfer_tolerated env opts_tuple self
              (StorageUrlFromString env (GetSrcUrlStr ner)) _ _ _ _
              Hcopy Hskip Hcont) as (st2 & -> & Hh & Hc & _).
  unfold copy_finish, remove_source, removal_event. exec.
  rewrite Hver, Hacl, Hmv. cbn.
  destruct (IsCloudUrl _); cbn;
    try destruct (DeleteObject env _ _ _ _ _);
    try destruct (os_unlink env _ _); cbn;
    (split;
     [apply new_events_app; fields; rewrite Hh, <- app_assoc; reflexivity
     | exact Hc]).
Qed.

(** X11. A move of a source that names a container and contains a
    wildcard is refused before the destination is named, created or
    written; the only trace is that [recursion_requested] is now set. *)
Theorem mv_rejects_wildcard_directory ner st :
  perform_mv opts_tuple = true →
  NamesContainer ner = true →
  ContainsWildcard env (GetSrcUrlStr ner) = true →
  check_source env opts_tuple self ner st = (Returned tt, st) →
  use_manifest opts_tuple
  && Manifest.WasSuccessful (manifest st)
       (GetUrlString (StorageUrlFromString env (GetExpandedUrlStr ner)))
  = false →
  CopyFunc env opts_tuple self ner st
  = (Raised (CommandException
               "The mv command disallows naming source directories using wildcards"),
     set_recursion_requested true st).
Proof.
  intros Hmv Hcont Hwild Hsrc Hman.
  unfold CopyFunc, copy_item, bind at 1 2, get. rewrite Hsrc, Hman.
  unfold bind at 1. unfold prepare_destination. exec.
  now rewrite Hmv, Hcont, Hwild.
Qed.

(** X12. With [-a], when the setting of the ACL fails after a successful
    transfer, [CopyFunc] raises that failure: in a move the source is not
    removed, and the bytes and the time of the transfer are not added to
    the counters. *)
Theorem acl_failure_after_transfer ner st dst_url st1 r e :
  truthy (canned_acl opts_tuple) = true →
  (∀ h, SetAclFunc env h (GetUrlString dst_url) = Some e) →
  reaches_transfer env opts_tuple self ner st dst_url st1 →
  PerformCopy env (history st1)
    (StorageUrlFromString env (GetExpandedUrlStr ner)) dst_url = Returned r →
  let st' := snd (CopyFunc env opts_tuple self ner st) in
  fst (CopyFunc env opts_tuple self ner st) = Raised e
  ∧ filter is_removal (new_events st1 st') = []
  ∧ last (new_events st1 st') = Some (EvSetAcl (GetUrlString dst_url))
  ∧ total_bytes_transferred st' = total_bytes_transferred st1
  ∧ total_elapsed_time st' = total_elapsed_time st1.
Proof.
  intros Hacl Hfail Hreach Hcopy st'. subst st'.
  rewrite (CopyFunc_reaches _ _ _ _ _ _ _ Hreach). unfold bind.
  destruct (copy_transfer_success env opts_tuple self
              (StorageUrlFromString env (GetSrcUrlStr ner)) _ _ _ _
              Hcopy) as (st2 & -> & Hh & _ & Ht & Hb & _).
  unfold copy_finish. exec. rewrite Hacl.
  destruct (print_ver opts_tuple); cbn; rewrite Hfail; cbn;
    (split; [reflexivity |]);
    match goal with
    | |- context [new_events st1 ?s] =>
        erewrite (new_events_app st1 s)
          by (fields; rewrite Hh, <- app_assoc; reflexivity)
    end; auto.
Qed.

(** X13. For a multi-source request, [InsistDstUrlNamesContainer] is
    consulted before the manifest: when it raises, [CopyFunc] raises the
    same exception and changes nothing, even for an item that the manifest
    records as done. *)
Theorem multi_source_needs_container ner st e :
  IsMultiSrcRequest ner = true →
  IsCloudUrl (StorageUrlFromString env (GetSrcUrlStr ner))
  && IsProvider (StorageUrlFromString env (GetSrcUrlStr ner)) = false →
  InsistDstUrlNamesContainer env (exp_dst_url self)
    (have_existing_dst_container self) (cmd_name opts_tuple self) = Some e →
  CopyFunc env opts_tuple self ner st = (Raised e, st).
Proof.
  intros Hmulti Hprov Hinsist.
  unfold CopyFunc, check_source. exec.
  now rewrite Hprov, Hmulti, Hinsist.
Qed.

(** X14. A local destination that does not exist is created by
    [os.makedirs] exactly for a multi-source request, before the
    destination of the item is named; when the creation fails, [CopyFunc]
    stops there, and when the three conditions do not all hold the first
    thing recorded is the naming of the destination. *)
Theorem local_destination_is_created_first ner st :
  perform_mv opts_tuple && NamesContainer ner = false →
  let path := object_name (exp_dst_url self) in
  let wanted :=
    IsFileUrl (exp_dst_url self)
    && negb (os_path_exists env (history st) path)
    && IsMultiSrcRequest ner in
  let r := prepare_destination env opts_tuple self ner st in
  (wanted = true →
   (∀ e, os_makedirs env (history st) path = Some e →
         r = (Raised e, record_event (EvMakedirs path) st))
   ∧ (os_makedirs env (history st) path = None →
      ∃ rest, new_events st (snd r) = EvMakedirs path :: rest
              ∧ head rest
                = Some (EvConstructDstUrl
                          (StorageUrlFromString env (GetExpandedUrlStr ner))
                          (resolve_dst_url env self ner))))
  ∧ (wanted = false →
     head (new_events st (snd r))
     = Some (EvConstructDstUrl
               (StorageUrlFromString env (GetExpandedUrlStr ner))
               (resolve_dst_url env self ner))).
Proof.
  intros Hmv path wanted r. subst r wanted path.
  unfold prepare_destination. exec. rewrite Hmv. cbn.
  split.
  - intros ->. cbn. split.
    + now intros e ->.
    + intros ->. cbn.
      destruct (CheckForDirFileConflict _ _ _ _); cbn;
        eexists; (split; [events_since | reflexivity]).
  - intros ->. cbn.
    destruct (CheckForDirFileConflict _ _ _ _); cbn;
      unfold new_events; fields; now rewrite drop_app_length.
Qed.

End Paths.

Ltac reached := repeat split; vm_compute; reflexivity.

Lemma failed_transfer_without_continue_on_error_witness :
  let opts := Scenario.opts true false true in
  let self := Scenario.self_to "gs://b/dst" false in
  let ner := Scenario.item "gs://b/bad" in
  let st1 := snd (prepare_destination Scenario.flaky opts self ner
                    Scenario.fresh) in
  reaches_transfer Scenario.flaky opts self ner Scenario.fresh
    (Scenario.parse "gs://b/dst") st1
  ∧ fst (CopyFunc Scenario.flaky opts self ner Scenario.fresh)
    = Raised (OtherError "connection reset")
  ∧ manifest (snd (CopyFunc Scenario.flaky opts self ner Scenario.fresh))
    !! "gs://b/bad"
    = Some (mkManifestEntry "gs://b/dst" 0%Z None (Some TagError)
              (Some "connection reset"))
  ∧ filter is_removal
      (history (snd (CopyFunc Scenario.flaky opts self ner Scenario.fresh)))
    = [].
Proof.
  cbv zeta.
  assert (reaches_transfer Scenario.flaky (Scenario.opts true false true)
            (Scenario.self_to "gs://b/dst" false)
            (Scenario.item "gs://b/bad") Scenario.fresh
            (Scenario.parse "gs://b/dst")
            (snd (prepare_destination Scenario.flaky
                    (Scenario.opts true false true)
                    (Scenario.self_to "gs://b/dst" false)
                    (Scenario.item "gs://b/bad") Scenario.fresh)))
    as Hreach by reached.
  split; [exact Hreach |].
  pose proof (failed_transfer_without_continue_on_error Scenario.flaky
                (Scenario.opts true false true)
                (Scenario.self_to "gs://b/dst" false)
                (Scenario.item "gs://b/bad") Scenario.fresh
                (Scenario.parse "gs://b/dst") _
                (OtherError "connection reset")
                eq_refl Hreach eq_refl eq_refl)
    as (Hraised & _ & Hentry & _).
  split; [exact Hraised |].
  split; [exact (Hentry eq_refl) | vm_compute; reflexivity].
Defined.

Lemma tolerated_failure_in_move_removes_source_witness :
  let opts := Scenario.opts true false false in
  let self := Scenario.self_to "gs://b/dst" true in
  let ner := Scenario.item "gs://b/bad" in
  let st1 := snd (prepare_destination Scenario.flaky opts self ner
                    Scenario.fresh) in
  reaches_transfer Scenario.flaky opts self ner Scenario.fresh
    (Scenario.parse "gs://b/dst") st1
  ∧ copy_failure_count
      (snd (CopyFunc Scenario.flaky opts self ner Scenario.fresh)) = 1%Z
  ∧ filter is_removal
      (history (snd (CopyFunc Scenario.flaky opts self ner Scenario.fresh)))
    = [EvDeleteObject "bucket" "gs://b/bad" None "gs"].
Proof.
  cbv zeta.
  assert (reaches_transfer Scenario.flaky (Scenario.opts true false false)
            (Scenario.self_to "gs://b/dst" true)
            (Scenario.item "gs://b/bad") Scenario.fresh
            (Scenario.parse "gs://b/dst")
            (snd (prepare_destination Scenario.flaky
                    (Scenario.opts true false false)
                    (Scenario.self_to "gs://b/dst" true)
                    (Scenario.item "gs://b/bad") Scenario.fresh)))
    as Hreach by reached.
  split; [exact Hreach |].
  split; [| vm_compute; reflexivity].
  exact (proj2 (tolerated_failure_in_move_removes_source Scenario.flaky
                  (Scenario.opts true false false)
                  (Scenario.self_to "gs://b/dst" true)
                  (Scenario.item "gs://b/bad") Scenario.fresh
                  (Scenario.parse "gs://b/dst") _
                  (OtherError "connection reset")
                  eq_refl eq_refl eq_refl eq_refl Hreach eq_refl eq_refl)).
Defined.

Lemma mv_rejects_wildcard_directory_witness :
  perform_mv (Scenario.opts true false false) = true
  ∧ NamesContainer (Scenario.directory "gs://b/dir*") = true
  ∧ ContainsWildcard Scenario.wildcards "gs://b/dir*" = true
  ∧ CopyFunc Scenario.wildcards (Scenario.opts true false false)
      (Scenario.self_to "gs://b" false) (Scenario.directory "gs://b/dir*")
      Scenario.fresh
    = (Raised (CommandException
                 "The mv command disallows naming source directories using wildcards"),
       set_recursion_requested true Scenario.fresh).
Proof.
  repeat (split; [reflexivity |]).
  exact (mv_rejects_wildcard_directory Scenario.wildcards
           (Scenario.opts true false false)
           (Scenario.self_to "gs://b" false)
           (Scenario.directory "gs://b/dir*") Scenario.fresh
           eq_refl eq_refl eq_refl eq_refl eq_refl).
Defined.

Lemma acl_failure_after_transfer_witness :
  let opts := mkOptsTuple true false false false false false false
                (Some "public-read") in
  let self := Scenario.self_to "gs://b/dst" false in
  let ner := Scenario.item "gs://b/src" in
  let st1 := snd (prepare_destination Scenario.acl_denied opts self ner
                    Scenario.fresh) in
  truthy (canned_acl opts) = true
  ∧ reaches_transfer Scenario.acl_denied opts self ner Scenario.fresh
      (Scenario.parse "gs://b/dst") st1
  ∧ fst (CopyFunc Scenario.acl_denied opts self ner Scenario.fresh)
    = Raised (AccessDeniedException "acl")
  ∧ total_bytes_transferred
      (snd (CopyFunc Scenario.acl_denied opts self ner Scenario.fresh))
    = 0%Z.
Proof.
  cbv zeta. split; [reflexivity |].
  assert (reaches_transfer Scenario.acl_denied
            (mkOptsTuple true false false false false false false
               (Some "public-read"))
            (Scenario.self_to "gs://b/dst" false)
            (Scenario.item "gs://b/src") Scenario.fresh
            (Scenario.parse "gs://b/dst")
            (snd (prepare_destination Scenario.acl_denied
                    (mkOptsTuple true false false false false false false
                       (Some "public-read"))
                    (Scenario.self_to "gs://b/dst" false)
                    (Scenario.item "gs://b/src") Scenario.fresh)))
    as Hreach by reached.
  split; [exact Hreach |].
  pose proof (acl_failure_after_transfer Scenario.acl_denied
                (mkOptsTuple true false false false false false false
                   (Some "public-read"))
                (Scenario.self_to "gs://b/dst" false)
                (Scenario.item "gs://b/src") Scenario.fresh
                (Scenario.parse "gs://b/dst") _
                (mkCopyResult 2%float 10%Z (Scenario.parse "gs://b/dst")
                   (Some "md5"))
                (AccessDeniedException "acl")
                eq_refl (λ _, eq_refl) Hreach eq_refl)
    as (Hraised & _ & _ & Hbytes & _).
  split; [exact Hraised | exact Hbytes].
Defined.

Lemma multi_source_needs_container_witness :
  IsMultiSrcRequest (Scenario.directory "gs://b/dir") = true
  ∧ CopyFunc Scenario.no_container (Scenario.opts false false true)
      (Scenario.self_to "gs://b/dst" false) (Scenario.directory "gs://b/dir")
      Scenario.fresh
    = (Raised (CommandException "destination must name a container"),
       Scenario.fresh).
Proof.
  split; [reflexivity |].
  exact (multi_source_needs_container Scenario.no_container
           (Scenario.opts false false true)
           (Scenario.self_to "gs://b/dst" false)
           (Scenario.directory "gs://b/dir") Scenario.fresh _
           eq_refl eq_refl eq_refl).
Defined.

Lemma local_destination_is_created_first_witness :
  perform_mv (Scenario.opts false false false)
  && NamesContainer (Scenario.directory "a") = false
  ∧ prepare_destination Scenario.missing_dir
      (Scenario.opts false false false) (Scenario.self_to "out" false)
      (Scenario.directory "a") Scenario.fresh
    = (Raised (OtherError "permission denied"),
       record_event (EvMakedirs "out") Scenario.fresh).
Proof.
  split; [reflexivity |].
  exact (proj1 (proj1 (local_destination_is_created_first
                         Scenario.missing_dir
                         (Scenario.opts false false false)
                         (Scenario.self_to "out" false)
                         (Scenario.directory "a") Scenario.fresh eq_refl)
                  eq_refl)
           (OtherError "permission denied") eq_refl).
Defined.

(** ** [RunCommand] as a whole *)

Section Run.

Context (env : Env) (renv : RunEnv) (opts_tuple : OptsTuple).
Context (the_command_name : string) (the_continue_on_error : bool)
        (the_debug : Z).

Local Abbreviation run_command :=
  (RunCommand env renv opts_tuple the_command_name the_continue_on_error
     the_debug).

(** With well-formed arguments, a destination that expands and a probe
    that answers, [RunCommand] is the pool followed by [finish_run]. *)
Lemma RunCommand_unfold (args : list string) (dst_arg : string)
    (exp_dst : StorageUrl) (have_existing all_versions : bool) (st : State) :
  last args = Some dst_arg →
  String.eqb dst_arg "-" || String.eqb dst_arg "file://-" = false →
  read_args_from_stdin opts_tuple = false →
  (length args <? 2)%nat = false →
  ExpandDstUrl renv dst_arg = Returned (exp_dst, have_existing) →
  probe_all_versions renv exp_dst = Returned all_versions →
  let recursion := recursion_requested st || perform_mv opts_tuple in
  let st0 := pool_start (removelast args) recursion all_versions st in
  run_command args st
  = bind (Apply (_CopyFuncWrapper env opts_tuple
                   (mkSelf the_command_name the_continue_on_error the_debug
                      exp_dst have_existing))
            (NameExpansionIterator renv (removelast args) recursion
               have_existing all_versions)
            _CopyExceptionHandler true)
         (λ _, finish_run renv the_debug (time_time renv (history st0)))
         st0.
Proof.
  intros Hlast Hdash Hstdin Hlen Hdst Hprobe recursion st0.
  unfold RunCommand. unfold bind at 1. unfold modify at 1.
  rewrite Hlast, Hdash, Hstdin, Hlen.
  unfold bind at 1. unfold ret at 1.
  unfold bind at 1. unfold lift at 1. rewrite Hdst. cbn [fst snd].
  unfold bind at 1. unfold lift at 1. rewrite Hprobe.
  unfold bind at 1. unfold get at 1.
  unfold bind at 1. unfold modify at 1.
  unfold bind at 1. unfold modify at 1.
  unfold bind at 1. unfold get at 1.
  reflexivity.
Qed.

(** X15. When the last argument is [-] or [file://-], [RunCommand] hands
    the other arguments to [CatUrlStrings] and returns its result: the
    destination is not expanded, nothing is enumerated and nothing is
    copied; the two counters have been set to zero. *)
Theorem RunCommand_to_stdout (args : list string) (dst_arg : string)
    (st : State) :
  last args = Some dst_arg →
  String.eqb dst_arg "-" || String.eqb dst_arg "file://-" = true →
  run_command args st
  = (CatUrlStrings renv (removelast args),
     set_total_bytes_transferred 0%Z (set_total_elapsed_time 0%float st)).
Proof.
  intros Hlast Hdash. unfold RunCommand, bind, modify, lift.
  now rewrite Hlast, Hdash.
Qed.

(** X16. With a last argument other than [-]: without [-I], fewer than
    two arguments are refused, and with [-I] any number of arguments other
    than one is refused, each with its [CommandException], before the
    destination is expanded and with an unchanged history. *)
Theorem RunCommand_wrong_arguments (args : list string) (dst_arg : string)
    (st : State) :
  last args = Some dst_arg →
  String.eqb dst_arg "-" || String.eqb dst_arg "file://-" = false →
  (read_args_from_stdin opts_tuple = false → (length args < 2)%nat →
   fst (run_command args st)
   = Raised (CommandException
               ("Wrong number of arguments for " +:+ dq +:+ "cp" +:+ dq +:+
                " command."))
   ∧ history (snd (run_command args st)) = history st)
  ∧ (read_args_from_stdin opts_tuple = true → length args ≠ 1%nat →
     fst (run_command args st)
     = Raised (CommandException
                 "Source URLs cannot be specified with -I option")
     ∧ history (snd (run_command args st)) = history st).
Proof.
  intros Hlast Hdash. unfold RunCommand, bind, modify, lift, raise, ret.
  rewrite Hlast, Hdash. split.
  - intros -> Hlen. apply Nat.ltb_lt in Hlen. now rewrite Hlen.
  - intros -> Hlen. apply Nat.eqb_neq in Hlen. now rewrite Hlen.
Qed.

(** X17. The status of a run does not depend on the counters that the
    command object held before: [RunCommand] starts from zero. *)
Theorem RunCommand_starts_from_zero (args : list string) (st st' : State) :
  manifest st = manifest st' →
  recursion_requested st = recursion_requested st' →
  history st = history st' →
  fst (run_command args st) = fst (run_command args st').
Proof.
  destruct st as [m c t b r h], st' as [m' c' t' b' r' h']. cbn.
  intros <- <- <-.
  unfold RunCommand, bind, modify, lift, get, raise, ret.
  destruct (last args) as [dst_arg |]; [| reflexivity].
  destruct (String.eqb dst_arg "-" || String.eqb dst_arg "file://-");
    [reflexivity |].
  repeat match goal with
         | |- context [if ?b then _ else _] => destruct b
         end;
    try reflexivity;
    (destruct (ExpandDstUrl renv dst_arg) as [[exp_dst have] | e'];
     [| reflexivity]; cbn [fst snd];
     destruct (probe_all_versions renv exp_dst); reflexivity).
Qed.

End Run.

Section RunStatus.

Context (env : Env) (renv : RunEnv) (opts_tuple : OptsTuple).
Context (the_command_name : string) (the_continue_on_error : bool)
        (the_debug : Z).

(** X18. When the destination is a cloud bucket that the service does not
    find, [RunCommand] raises the [CommandException] "Destination bucket
    ... does not exist." before any source is enumerated or copied. *)
Theorem RunCommand_missing_bucket (args : list string) (dst_arg : string)
    (exp_dst : StorageUrl) (have_existing : bool) (detail : string)
    (st : State) :
  last args = Some dst_arg →
  String.eqb dst_arg "-" || String.eqb dst_arg "file://-" = false →
  read_args_from_stdin opts_tuple = false →
  (length args <? 2)%nat = false →
  ExpandDstUrl renv dst_arg = Returned (exp_dst, have_existing) →
  IsCloudUrl exp_dst && IsBucket exp_dst = true →
  GetBucket renv (bucket_name exp_dst) (scheme exp_dst)
  = Raised (NotFoundException detail) →
  RunCommand env renv opts_tuple the_command_name the_continue_on_error
    the_debug args st
  = (Raised (CommandException
               ("Destination bucket " +:+ GetUrlString exp_dst +:+
                " does not exist.")),
     set_total_bytes_transferred 0%Z (set_total_elapsed_time 0%float st)).
Proof.
  intros Hlast Hdash Hstdin Hlen Hdst Hbucket Hprobe.
  unfold RunCommand, bind, modify, lift, ret.
  rewrite Hlast, Hdash, Hstdin, Hlen, Hdst. cbn [fst snd].
  unfold probe_all_versions, _GetBucketWithVersioningConfig.
  now rewrite Hbucket, Hprobe.
Qed.

(** X20. A run whose pool raises ends with that exception: the throughput
    is not computed, the elapsed-time counter is not set, and the exit
    policy is not applied. *)
Theorem RunCommand_status_of_an_aborted_pool (args : list string)
    (dst_arg : string) (exp_dst : StorageUrl)
    (have_existing all_versions : bool) (st st1 : State) (e : Exn) :
  last args = Some dst_arg →
  String.eqb dst_arg "-" || String.eqb dst_arg "file://-" = false →
  read_args_from_stdin opts_tuple = false →
  (length args <? 2)%nat = false →
  ExpandDstUrl renv dst_arg = Returned (exp_dst, have_existing) →
  probe_all_versions renv exp_dst = Returned all_versions →
  let recursion := recursion_requested st || perform_mv opts_tuple in
  let st0 := pool_start (removelast args) recursion all_versions st in
  Apply (_CopyFuncWrapper env opts_tuple
           (mkSelf the_command_name the_continue_on_error the_debug
              exp_dst have_existing))
    (NameExpansionIterator renv (removelast args) recursion have_existing
       all_versions)
    _CopyExceptionHandler true st0
  = (Raised e, st1) →
  RunCommand env renv opts_tuple the_command_name the_continue_on_error
    the_debug args st
  = (Raised e, st1).
Proof.
  intros Hlast Hdash Hstdin Hlen Hdst Hprobe recursion st0 Hpool.
  rewrite (RunCommand_unfold env renv opts_tuple the_command_name
             the_continue_on_error the_debug args dst_arg exp_dst
             have_existing all_versions st Hlast Hdash Hstdin Hlen Hdst
             Hprobe).
  fold recursion st0. unfold bind. now rewrite Hpool.
Qed.

End RunStatus.

Lemma RunCommand_to_stdout_witness :
  last ["gs://b/src"; "-"] = Some "-"
  ∧ RunCommand Scenario.fine (Scenario.run_world (Returned (mkBucket None)))
      (Scenario.opts false false false) "cp" false 0%Z ["gs://b/src"; "-"]
      Scenario.fresh
    = (Returned 0%Z, Scenario.fresh).
Proof.
  split; [reflexivity |].
  exact (RunCommand_to_stdout Scenario.fine
           (Scenario.run_world (Returned (mkBucket None)))
           (Scenario.opts false false false) "cp" false 0%Z
           ["gs://b/src"; "-"] "-" Scenario.fresh eq_refl eq_refl).
Defined.

Lemma RunCommand_wrong_arguments_witness :
  (length ["gs://b/src"] < 2)%nat
  ∧ history (snd (RunCommand Scenario.fine
                    (Scenario.run_world (Returned (mkBucket None)))
                    (Scenario.opts false false false) "cp" false 0%Z
                    ["gs://b/src"] Scenario.fresh))
    = [].
Proof.
  split; [cbn; lia |].
  refine (proj2 (proj1 (RunCommand_wrong_arguments Scenario.fine
                          (Scenario.run_world (Returned (mkBucket None)))
                          (Scenario.opts false false false) "cp" false 0%Z
                          ["gs://b/src"] "gs://b/src" Scenario.fresh
                          eq_refl eq_refl) eq_refl _)).
  cbn; lia.
Defined.

Lemma RunCommand_starts_from_zero_witness :
  fst (RunCommand Scenario.flaky
         (Scenario.run_world (Returned (mkBucket None)))
         (Scenario.opts false false false) "cp" true 0%Z
         ["gs://b/src"; "gs://b/dst"]
         (mkState ∅ 7%Z 3%float 100%Z false []))
  = fst (RunCommand Scenario.flaky
           (Scenario.run_world (Returned (mkBucket None)))
           (Scenario.opts false false false) "cp" true 0%Z
           ["gs://b/src"; "gs://b/dst"] Scenario.fresh).
Proof.
  exact (RunCommand_starts_from_zero Scenario.flaky
           (Scenario.run_world (Returned (mkBucket None)))
           (Scenario.opts false false false) "cp" true 0%Z
           ["gs://b/src"; "gs://b/dst"]
           (mkState ∅ 7%Z 3%float 100%Z false []) Scenario.fresh
           eq_refl eq_refl eq_refl).
Defined.

Lemma RunCommand_missing_bucket_witness :
  IsCloudUrl (Scenario.parse "gs://b") && IsBucket (Scenario.parse "gs://b")
  = true
  ∧ RunCommand Scenario.fine
      (Scenario.run_world (Raised (NotFoundException "404")))
      (Scenario.opts false false false) "cp" false 0%Z
      ["gs://b/src"; "gs://b"] Scenario.fresh
    = (Raised (CommandException "Destination bucket gs://b does not exist."),
       Scenario.fresh).
Proof.
  split; [reflexivity |].
  exact (RunCommand_missing_bucket Scenario.fine
           (Scenario.run_world (Raised (NotFoundException "404")))
           (Scenario.opts false false false) "cp" false 0%Z
           ["gs://b/src"; "gs://b"] "gs://b" (Scenario.parse "gs://b") false
           "404" Scenario.fresh
           eq_refl eq_refl eq_refl eq_refl eq_refl eq_refl eq_refl).
Defined.

Lemma RunCommand_status_of_an_aborted_pool_witness :
  let renv := Scenario.run_world (Returned (mkBucket None)) in
  let st0 := pool_start ["gs://b/bad"; "gs://b/src"] false false
               Scenario.fresh in
  fst (Apply (_CopyFuncWrapper Scenario.flaky
                (Scenario.opts false false false)
                (Scenario.self_to "gs://b/dst" false))
         (NameExpansionIterator renv ["gs://b/bad"; "gs://b/src"] false false
            false)
         _CopyExceptionHandler true st0)
  = Raised (OtherError "connection reset")
  ∧ fst (RunCommand Scenario.flaky renv (Scenario.opts false false false)
           "cp" false 0%Z ["gs://b/bad"; "gs://b/src"; "gs://b/dst"]
           Scenario.fresh)
    = Raised (OtherError "connection reset").
Proof.
  cbv zeta. split; [vm_compute; reflexivity |].
  rewrite (RunCommand_status_of_an_aborted_pool Scenario.flaky
             (Scenario.run_world (Returned (mkBucket None)))
             (Scenario.opts false false false) "cp" false 0%Z
             ["gs://b/bad"; "gs://b/src"; "gs://b/dst"] "gs://b/dst"
             (Scenario.parse "gs://b/dst") false false Scenario.fresh
             (snd (Apply (_CopyFuncWrapper Scenario.flaky
                            (Scenario.opts false false false)
                            (Scenario.self_to "gs://b/dst" false))
                     (NameExpansionIterator
                        (Scenario.run_world (Returned (mkBucket None)))
                        ["gs://b/bad"; "gs://b/src"] false false false)
                     _CopyExceptionHandler true
                     (pool_start ["gs://b/bad"; "gs://b/src"] false false
                        Scenario.fresh)))
             (OtherError "connection reset")
             eq_refl eq_refl eq_refl eq_refl eq_refl eq_refl).
  - reflexivity.
  - vm_compute; reflexivity.
Defined.
